(** * mock-amqp-server: the HTTP control channel ([service/http_protocol.py])

    A shallow embedding of [HTTPProtocol]: the request state machine driven
    by the events of the h11 parser, the route handlers, the completion
    callback of the deferred waits and the response writers.

    The module's collaborators are not part of the file and are taken as
    interfaces: the h11 connection ([H11]), the broker state
    ([GlobalState], [service/state.py]) and the Python runtime functions the
    module calls ([PyRuntime]: UTF-8 codec, [int], [json]). *)

From Stdlib Require Import List String Ascii ZArith Bool Lia.
From Stdlib Require Import DecimalString DecimalNat DecimalZ.
Import ListNotations.

Set Implicit Arguments.
Local Open Scope string_scope.
Local Open Scope list_scope.

(** ** Bytes and the Python string operations used by the module *)

(** A Python [bytes] value: one [ascii] per byte. *)
Definition bytes := string.

(** A Python [str].  It is kept apart from [bytes] by the codec functions of
    [PyRuntime]; text literals of the module (['headers'], ['body']) are
    ASCII and stand for themselves. *)
Definition str := string.

Definition LF : bytes := String "010"%char EmptyString.

(** [s.startswith(p)]. *)
Fixpoint startswith (s p : bytes) {struct p} : bool :=
  match p with
  | EmptyString => true
  | String b p' =>
      match s with
      | EmptyString => false
      | String a s' => Ascii.eqb a b && startswith s' p'
      end
  end.

(** First occurrence of the separator: the text before it and after it. *)
Fixpoint cut (sep : ascii) (s : bytes) : option (bytes * bytes) :=
  match s with
  | EmptyString => None
  | String a s' =>
      if Ascii.eqb a sep then Some (EmptyString, s')
      else match cut sep s' with
           | Some (l, r) => Some (String a l, r)
           | None => None
           end
  end.

(** [s.split(sep, maxsplit=n)] for a one-byte separator. *)
Fixpoint split (sep : ascii) (maxsplit : nat) (s : bytes) : list bytes :=
  match maxsplit with
  | O => [s]
  | S n =>
      match cut sep s with
      | Some (l, r) => l :: split sep n r
      | None => [s]
      end
  end.

(** [sep in s] for one byte. *)
Fixpoint has_byte (sep : ascii) (s : bytes) : bool :=
  match s with
  | EmptyString => false
  | String a s' => Ascii.eqb a sep || has_byte sep s'
  end.

(** [str(n)] for a length, and [str(z)] for an integer, in ASCII. *)
Definition str_of_nat (n : nat) : bytes :=
  NilZero.string_of_uint (Nat.to_uint n).

Definition str_of_int (z : Z) : bytes :=
  NilZero.string_of_int (Z.to_int z).

(** ** Exceptions *)

Inductive exn : Type :=
| WaitTimeout          (* service.state.WaitTimeout *)
| UnicodeDecodeError   (* bytes.decode('utf-8') *)
| UnicodeEncodeError   (* str.encode('utf-8') *)
| ValueError           (* int(), json.loads, tuple unpacking *)
| KeyError             (* missing dict key *)
| TypeError            (* subscript of a non-dict, json.dumps *)
| AttributeError       (* method of a value that has none *)
| IndexError           (* list index out of range *)
| ProtocolError        (* h11.LocalProtocolError, h11.RemoteProtocolError *)
| OtherError (tag : nat)  (* any other failure of a collaborator *)
| BaseException (tag : nat). (* KeyboardInterrupt, SystemExit,
                                asyncio.CancelledError: not an Exception *)

Definition exn_eqb (a b : exn) : bool :=
  match a, b with
  | WaitTimeout, WaitTimeout | UnicodeDecodeError, UnicodeDecodeError
  | UnicodeEncodeError, UnicodeEncodeError | ValueError, ValueError
  | KeyError, KeyError | TypeError, TypeError
  | AttributeError, AttributeError | IndexError, IndexError
  | ProtocolError, ProtocolError => true
  | OtherError n, OtherError m => Nat.eqb n m
  | BaseException n, BaseException m => Nat.eqb n m
  | _, _ => false
  end.

(** [isinstance(e, Exception)]: what [except Exception] catches. *)
Definition is_exception (e : exn) : bool :=
  match e with
  | BaseException _ => false
  | _ => true
  end.

Inductive result (A : Type) : Type :=
| Ok (a : A)
| Raise (e : exn).
Arguments Ok {A} a.
Arguments Raise {A} e.

(** ** Python values that cross the module (JSON documents, message lists) *)

Unset Elimination Schemes.
Inductive pyval : Type :=
| PNone
| PBool (b : bool)
| PInt (z : Z)
| PFloat (repr : str)
| PStr (s : str)
| PBytes (b : bytes)
| PList (l : list pyval)
| PDict (d : list (str * pyval)).
Set Elimination Schemes.

Fixpoint dict_get (d : list (str * pyval)) (k : str) : option pyval :=
  match d with
  | [] => None
  | (k', v) :: d' => if String.eqb k k' then Some v else dict_get d' k
  end.

(** [v[k]] for a text key. *)
Definition getitem (v : pyval) (k : str) : result pyval :=
  match v with
  | PDict d => match dict_get d k with Some x => Ok x | None => Raise KeyError end
  | _ => Raise TypeError
  end.

(** ** h11 events *)

Inductive h11_event : Type :=
| Request (method target : bytes)   (* headers and version are never read *)
| Response (status_code : Z) (headers : list (bytes * bytes))
| Data (data : bytes)
| EndOfMessage
| ConnectionClosed
| PAUSED.

(** What [http_parser.send(event)] returns: the serialisation of the event.
    The bytes themselves are h11's business; the transport log keeps the
    event they stand for. *)
Inductive wire : Type :=
| Serialised (event : h11_event).

Inductive _RequestState : Type :=
| WAITING_HEADERS
| WAITING_BODY.

Definition _RequestState_eqb (a b : _RequestState) : bool :=
  match a, b with
  | WAITING_HEADERS, WAITING_HEADERS | WAITING_BODY, WAITING_BODY => true
  | _, _ => false
  end.

(** The coroutine handed to [asyncio.ensure_future], with its arguments. *)
Inductive wait_call : Type :=
| wait_authentication_performed_on (username : bytes)
| wait_message_acknoledged (delivery_tag : Z)
| wait_queue_bound (queue exchange : str).

(** ** Interfaces of the collaborators *)

(** The sending half of [h11.Connection]: [send] accepts the event (and
    returns its serialisation) or raises, and moves the connection's own
    state either way. *)
Class H11 : Type := {
  conn : Type;
  send : conn -> h11_event -> result unit * conn;
}.

(** The synchronous operations of the broker state. *)
Class GlobalState : Type := {
  gstate : Type;
  get_messages_of_queue : gstate -> str -> result (option pyval) * gstate;
  get_messages_of_exchange : gstate -> str -> result (option pyval) * gstate;
  publish_message : gstate -> str -> pyval -> bytes -> result (option Z) * gstate;
  delete_messages_of_queue : gstate -> str -> result unit * gstate;
}.

(** Runtime functions; [None] is the function's exception. *)
Class PyRuntime : Type := {
  decode_utf8 : bytes -> option str;     (* UnicodeDecodeError *)
  encode_utf8 : str -> option bytes;     (* UnicodeEncodeError *)
  int_of_str : str -> option Z;          (* int(s): ValueError *)
  json_loads : str -> option pyval;      (* ValueError *)
  json_dumps : pyval -> option str;      (* TypeError *)
  format_date_time : bytes;              (* format_date_time(None): the current date *)
}.

(** ** Responses as they appear on the wire *)

(** The value of a header, by name. *)
Fixpoint header (name : bytes) (headers : list (bytes * bytes)) : option bytes :=
  match headers with
  | [] => None
  | (n, v) :: rest => if String.eqb n name then Some v else header name rest
  end.

(** The number a response declares as its Content-Length. *)
Definition content_length (headers : list (bytes * bytes)) : option nat :=
  match header "Content-Length" headers with
  | Some v => option_map Nat.of_uint (NilZero.uint_of_string v)
  | None => None
  end.

(** The header block every response carries: these four names, in this
    order, a Content-Length that is the byte length of the body, and
    [Connection: close]. *)
Record well_formed_headers (headers : list (bytes * bytes)) (body : bytes)
  : Prop := {
  wf_names : map fst headers = ["Date"; "Server"; "Content-Length"; "Connection"];
  wf_length : content_length headers = Some (String.length body);
  wf_close : header "Connection" headers = Some "close";
}.

(** One response of the given status and body, as the writes it takes: the
    head alone for 204, the head and one body frame otherwise. *)
Inductive response_frame : Z -> bytes -> list wire -> Prop :=
| frame_no_content headers :
    well_formed_headers headers EmptyString ->
    response_frame 204 EmptyString [Serialised (Response 204 headers)]
| frame_with_body status headers body :
    well_formed_headers headers body ->
    response_frame status body
      [Serialised (Response status headers); Serialised (Data body)].

Definition status_codes : list Z := [200; 204; 403; 404; 500; 504]%Z.

(** A transport log made of whole responses only. *)
Inductive framed : list wire -> Prop :=
| framed_nil : framed []
| framed_snoc log status body frame :
    framed log ->
    In status status_codes ->
    response_frame status body frame ->
    framed (log ++ frame).

(** The status and body the wait bridge assigns to the outcome of a wait
    (true, false, timeout); no other outcome has one. *)
Definition bridge (future : result bool) : option (Z * bytes) :=
  match future with
  | Ok true => Some (204%Z, EmptyString)
  | Ok false => Some (403%Z, ("forbidden" ++ LF)%string)
  | Raise WaitTimeout => Some (504%Z, ("timeout" ++ LF)%string)
  | Raise _ => None
  end.

(** The events of one request: header-complete, the body chunks, end of
    message; the parser then answers [NEED_DATA]. (Not so after a CONNECT
    request: h11 then pauses, and the loop of [_data_received] does not
    end.) *)
Definition request_events (method target : bytes) (chunks : list bytes)
  : list (result h11_event) :=
  Ok (Request method target) :: map (fun d => Ok (Data d)) chunks
    ++ [Ok EndOfMessage].

(** ** The protocol object *)

Record Transport : Type := mkTransport {
  written : list wire;
  closed : bool;
}.

Section Protocol.

Context {h11 : H11} {gs : GlobalState} {py : PyRuntime}.

Record HTTPProtocol : Type := mkProtocol {
  transport : Transport;
  _global_state : gstate;
  http_parser : conn;
  _state : _RequestState;
  _method : option bytes;
  _target : option bytes;
  futures : list wait_call;   (* futures with [_on_get_done] as done callback *)
}.

(** [__init__] followed by [connection_made]. *)
Definition init (global_state : gstate) (parser : conn) : HTTPProtocol :=
  {| transport := mkTransport [] false;
     _global_state := global_state;
     http_parser := parser;
     _state := WAITING_HEADERS;
     _method := None;
     _target := None;
     futures := [] |}.

(** *** Methods run in a state-and-exception monad: an exception leaves the
    mutations done so far in place. *)

Definition M (A : Type) : Type := HTTPProtocol -> result A * HTTPProtocol.

Definition ret {A} (a : A) : M A := fun self => (Ok a, self).

Definition raise {A} (e : exn) : M A := fun self => (Raise e, self).

Definition bind {A B} (m : M A) (k : A -> M B) : M B :=
  fun self =>
    match m self with
    | (Ok a, self') => k a self'
    | (Raise e, self') => (Raise e, self')
    end.

(** [try: m except <handled>: h] *)
Definition try_except {A} (m : M A) (handled : exn -> bool) (h : M A) : M A :=
  fun self =>
    match m self with
    | (Ok a, self') => (Ok a, self')
    | (Raise e, self') => if handled e then h self' else (Raise e, self')
    end.

Definition lift {A} (r : result A) : M A := fun self => (r, self).

Definition or_raise {A} (o : option A) (e : exn) : M A :=
  match o with
  | Some a => ret a
  | None => raise e
  end.

Notation "x <- m ;; k" := (bind m (fun x => k))
  (at level 61, m at next level, right associativity).
Notation "m ;; k" := (bind m (fun _ => k))
  (at level 61, right associativity).

(** *** Transport and parser calls *)

Definition transport_write (data : wire) : M unit :=
  fun self =>
    let t := transport self in
    (Ok tt,
     {| transport := mkTransport (written t ++ [data]) (closed t);
        _global_state := _global_state self;
        http_parser := http_parser self;
        _state := _state self;
        _method := _method self;
        _target := _target self;
        futures := futures self |}).

Definition transport_close : M unit :=
  fun self =>
    (Ok tt,
     {| transport := mkTransport (written (transport self)) true;
        _global_state := _global_state self;
        http_parser := http_parser self;
        _state := _state self;
        _method := _method self;
        _target := _target self;
        futures := futures self |}).

Definition http_parser_send (event : h11_event) : M wire :=
  fun self =>
    let (r, c) := send (http_parser self) event in
    (match r with
     | Ok _ => Ok (Serialised event)
     | Raise e => Raise e
     end,
     {| transport := transport self;
        _global_state := _global_state self;
        http_parser := c;
        _state := _state self;
        _method := _method self;
        _target := _target self;
        futures := futures self |}).

(** A synchronous call on [self._global_state]. *)
Definition global_state_call {A} (op : gstate -> result A * gstate) : M A :=
  fun self =>
    let (r, g) := op (_global_state self) in
    (r,
     {| transport := transport self;
        _global_state := g;
        http_parser := http_parser self;
        _state := _state self;
        _method := _method self;
        _target := _target self;
        futures := futures self |}).

(** [future = asyncio.ensure_future(w); future.add_done_callback(self._on_get_done)] *)
Definition ensure_future (w : wait_call) : M unit :=
  fun self =>
    (Ok tt,
     {| transport := transport self;
        _global_state := _global_state self;
        http_parser := http_parser self;
        _state := _state self;
        _method := _method self;
        _target := _target self;
        futures := futures self ++ [w] |}).

Definition set_request (method target : bytes) : M unit :=
  fun self =>
    (Ok tt,
     {| transport := transport self;
        _global_state := _global_state self;
        http_parser := http_parser self;
        _state := _state self;
        _method := Some method;
        _target := Some target;
        futures := futures self |}).

Definition set_state (s : _RequestState) : M unit :=
  fun self =>
    (Ok tt,
     {| transport := transport self;
        _global_state := _global_state self;
        http_parser := http_parser self;
        _state := s;
        _method := _method self;
        _target := _target self;
        futures := futures self |}).

Definition reset_request : M unit :=
  fun self =>
    (Ok tt,
     {| transport := transport self;
        _global_state := _global_state self;
        http_parser := http_parser self;
        _state := WAITING_HEADERS;
        _method := None;
        _target := None;
        futures := futures self |}).

Definition get_state : M _RequestState := fun self => (Ok (_state self), self).
Definition get_method : M (option bytes) := fun self => (Ok (_method self), self).
Definition get_target : M (option bytes) := fun self => (Ok (_target self), self).

(** *** Response writers *)

Definition _send_http_response_no_content : M unit :=
  data <- http_parser_send
            (Response 204
               [("Date", format_date_time);
                ("Server", "whatever");
                ("Content-Length", "0");
                ("Connection", "close")]) ;;
  transport_write data.

Definition _send_http_response_with_body (status_code : Z) (body : bytes) : M unit :=
  data <- http_parser_send
            (Response status_code
               [("Date", format_date_time);
                ("Server", "whatever");
                ("Content-Length", str_of_nat (String.length body));
                ("Connection", "close")]) ;;
  body_data <- http_parser_send (Data body) ;;
  transport_write data ;;
  transport_write body_data.

Definition _send_http_response_forbidden : M unit :=
  _send_http_response_with_body 403 ("forbidden" ++ LF)%string.

Definition _send_http_response_timeout : M unit :=
  _send_http_response_with_body 504 ("timeout" ++ LF)%string.

Definition _send_http_response_not_found : M unit :=
  _send_http_response_with_body 404 ("not found" ++ LF)%string.

Definition _send_http_response_ok (body : bytes) : M unit :=
  _send_http_response_with_body 200 (body ++ LF)%string.

Definition _send_http_internal_server_error : M unit :=
  _send_http_response_with_body 500 ("internal server error" ++ LF)%string.

(** *** Route handlers *)

Definition index (parts : list bytes) (i : nat) : M bytes :=
  or_raise (nth_error parts i) IndexError.

Definition decode (b : bytes) : M str :=
  or_raise (decode_utf8 b) UnicodeDecodeError.

Definition encode (s : str) : M bytes :=
  or_raise (encode_utf8 s) UnicodeEncodeError.

(** [x.encode('utf-8')] on a value of any type. *)
Definition encode_value (v : pyval) : M bytes :=
  match v with
  | PStr s => encode s
  | _ => raise AttributeError
  end.

(** The two inspection routes share their tail: absent -> 404, else the
    JSON rendering of the messages. *)
Definition send_messages (messages : option pyval) : M unit :=
  match messages with
  | None => _send_http_response_not_found
  | Some msgs =>
      text <- or_raise (json_dumps msgs) TypeError ;;
      body <- encode text ;;
      _send_http_response_ok body
  end.

Definition _on_get (target : bytes) : M unit :=
  if startswith target "/authentification-done-with-success-on/" then
    username <- index (split "/" 2 target) 2 ;;
    ensure_future (wait_authentication_performed_on username)
  else if startswith target "/messages-acknowledged/" then
    delivery_tag <- index (split "/" 2 target) 2 ;;
    text <- decode delivery_tag ;;
    tag <- or_raise (int_of_str text) ValueError ;;
    ensure_future (wait_message_acknoledged tag)
  else if startswith target "/messages-in-queue/" then
    queue_name <- index (split "/" 2 target) 2 ;;
    name <- decode queue_name ;;
    messages <- global_state_call (fun g => get_messages_of_queue g name) ;;
    send_messages messages
  else if startswith target "/messages-in-exchange/" then
    exchange_name <- index (split "/" 2 target) 2 ;;
    name <- decode exchange_name ;;
    messages <- global_state_call (fun g => get_messages_of_exchange g name) ;;
    send_messages messages
  else if startswith target "/queue-bound-to-exchange/" then
    match split "/" 3 target with
    | [_; _; queue; exchange] =>
        q <- decode queue ;;
        e <- decode exchange ;;
        ensure_future (wait_queue_bound q e)
    | _ => raise ValueError
    end
  else _send_http_response_not_found.

Definition _on_post (target : bytes) (data : bytes) : M unit :=
  if startswith target "/add-message-on/" then
    exchange <- index (split "/" 2 target) 2 ;;
    text <- decode data ;;
    full_message <- or_raise (json_loads text) ValueError ;;
    name <- decode exchange ;;
    headers <- lift (getitem full_message "headers") ;;
    body_text <- lift (getitem full_message "body") ;;
    body <- encode_value body_text ;;
    delivery_tag <- global_state_call (fun g => publish_message g name headers body) ;;
    match delivery_tag with
    | None => _send_http_response_not_found
    | Some tag => _send_http_response_ok (str_of_int tag)
    end
  else _send_http_response_not_found.

Definition _on_delete (target : bytes) : M unit :=
  if startswith target "/messages-in-queue/" then
    queue_name <- index (split "/" 2 target) 2 ;;
    name <- decode queue_name ;;
    global_state_call (fun g => delete_messages_of_queue g name) ;;
    _send_http_response_no_content
  else _send_http_response_not_found.

Definition _on_put (target : option bytes) (data : bytes) : M unit :=
  _send_http_response_not_found.

(** The done callback of every deferred wait; [future] is what
    [future.result()] returns or raises. *)
Definition _on_get_done (future : result bool) : M unit :=
  try_except
    (success <- lift future ;;
     if negb success then _send_http_response_forbidden
     else _send_http_response_no_content)
    (fun e => exn_eqb e WaitTimeout)
    _send_http_response_timeout.

(** *** The loop of [_data_received]

    The body of the [while] loop is three [if] blocks; the first two end in
    [continue] on some paths, which the blocks report by returning [true]. *)

Definition bytes_is (x : option bytes) (lit : bytes) : bool :=
  match x with
  | Some b => String.eqb b lit
  | None => false
  end.

Definition request_block (event : h11_event) : M bool :=
  st <- get_state ;;
  match event with
  | Request method target =>
      if _RequestState_eqb st WAITING_HEADERS then
        set_request method target ;;
        m <- get_method ;;
        if bytes_is m "GET" then _on_get target ;; ret true
        else if bytes_is m "DELETE" then _on_delete target ;; ret true
        else if bytes_is m "POST" || bytes_is m "PUT" then
          set_state WAITING_BODY ;; ret false
        else ret false
      else ret false
  | _ => ret false
  end.

Definition data_block (event : h11_event) : M bool :=
  st <- get_state ;;
  match event with
  | Data data =>
      if _RequestState_eqb st WAITING_BODY then
        m <- get_method ;;
        target <- get_target ;;
        if bytes_is m "POST" then
          match target with
          | Some t => _on_post t data ;; ret true
          | None => raise AttributeError   (* None.startswith *)
          end
        else if bytes_is m "PUT" then _on_put target data ;; ret true
        else ret false
      else ret false
  | _ => ret false
  end.

Definition end_of_message_block (event : h11_event) : M unit :=
  match event with
  | EndOfMessage => reset_request
  | _ => ret tt
  end.

Definition loop_body (event : h11_event) : M unit :=
  continue1 <- request_block event ;;
  if continue1 then ret tt
  else
    continue2 <- data_block event ;;
    if continue2 then ret tt
    else end_of_message_block event.

(** [_data_received(data)].  The argument is what the parser makes of the
    received bytes: the results of the successive [next_event()] calls, an
    event or an exception, up to the [NEED_DATA] that ends the loop (on
    which the loop body does nothing). *)
Fixpoint _data_received (events : list (result h11_event)) : M unit :=
  match events with
  | [] => ret tt
  | Raise e :: _ => raise e
  | Ok event :: rest => loop_body event ;; _data_received rest
  end.

Definition data_received (events : list (result h11_event)) : M unit :=
  fun self =>
    match _data_received events self with
    | (Ok a, self') => (Ok a, self')
    | (Raise e, self') =>
        if is_exception e then
          (_send_http_internal_server_error ;;
           transport_close ;;
           raise e) self'
        else (Raise e, self')
    end.

(** *** Vocabulary of the statements *)

(** The parser is at a point where it takes a response: any head whose
    Content-Length matches the body, then that body. *)
Definition ready (c : conn) : Prop :=
  forall status headers body,
    content_length headers = Some (String.length body) ->
    exists c1, send c (Response status headers) = (Ok tt, c1) /\
    exists c2, send c1 (Data body) = (Ok tt, c2).

(** The request fields and the transport's open/closed flag are the same. *)
Definition same_request (self self' : HTTPProtocol) : Prop :=
  _state self' = _state self /\ _method self' = _method self /\
  _target self' = _target self /\
  closed (transport self') = closed (transport self).

(** Nothing was written and no wait was registered. *)
Definition silent (self self' : HTTPProtocol) : Prop :=
  written (transport self') = written (transport self) /\
  futures self' = futures self.

(** Exactly one response was written, and no wait registered. *)
Definition responded (self self' : HTTPProtocol) : Prop :=
  exists status body frame,
    In status status_codes /\ response_frame status body frame /\
    written (transport self') = written (transport self) ++ frame /\
    futures self' = futures self.

(** Exactly one wait was registered, and nothing written. *)
Definition deferred (self self' : HTTPProtocol) : Prop :=
  exists w,
    written (transport self') = written (transport self) /\
    futures self' = futures self ++ [w].

(** A step inside a handler: it writes nothing, registers nothing and
    leaves the request fields alone, whether it returns or raises. *)
Definition quiet {A} (m : M A) : Prop :=
  forall self, same_request self (snd (m self)) /\ silent self (snd (m self)).

(** What a route handler may do: when it returns it has either written one
    response or registered one wait; when it raises it has done neither. *)
Definition handler_outcome (m : M unit) : Prop :=
  forall self,
    same_request self (snd (m self)) /\
    match fst (m self) with
    | Ok _ => responded self (snd (m self)) \/ deferred self (snd (m self))
    | Raise _ => silent self (snd (m self))
    end.

(** The handler's effect when it returns is [P]; when it raises it has
    written and registered nothing; either way the request fields are
    left alone. *)
Definition outcome_of (P : HTTPProtocol -> HTTPProtocol -> Prop)
    (m : M unit) : Prop :=
  forall self,
    same_request self (snd (m self)) /\
    match fst (m self) with
    | Ok _ => P self (snd (m self))
    | Raise _ => silent self (snd (m self))
    end.

(** The target is on one of the three routes that wait on the broker. *)
Definition deferred_route (target : bytes) : bool :=
  startswith target "/authentification-done-with-success-on/"
  || startswith target "/messages-acknowledged/"
  || startswith target "/queue-bound-to-exchange/".

(** A computation that keeps the transport log made of whole responses. *)
Definition keeps_framed {A} (m : M A) : Prop :=
  forall self,
    framed (written (transport self)) ->
    framed (written (transport (snd (m self)))).

(** The states a connection goes through: a fresh object, then any
    succession of received data and completed waits. *)
Inductive reachable : HTTPProtocol -> Prop :=
| reach_init global_state parser : reachable (init global_state parser)
| reach_data self events :
    reachable self -> reachable (snd (data_received events self))
| reach_done self future :
    reachable self -> reachable (snd (_on_get_done future self)).

(** The object after a response went out: the frame appended to the
    transport log, the parser in its new state. *)
Definition after_response (frame : list wire) (c : conn) (self : HTTPProtocol)
  : HTTPProtocol :=
  {| transport := mkTransport (written (transport self) ++ frame)
                              (closed (transport self));
     _global_state := _global_state self;
     http_parser := c;
     _state := _state self;
     _method := _method self;
     _target := _target self;
     futures := futures self |}.

(** [for d in chunks: f(d)] *)
Fixpoint for_each (chunks : list bytes) (f : bytes -> M unit) : M unit :=
  match chunks with
  | [] => ret tt
  | d :: rest => f d ;; for_each rest f
  end.

(** The reading of the POST route in which the body is assembled first:
    one call of the handler, on the whole body, at the end of the message. *)
Definition dispatch_assembled (target : bytes) (chunks : list bytes) : M unit :=
  set_request "POST" target ;;
  set_state WAITING_BODY ;;
  _on_post target (String.concat EmptyString chunks) ;;
  reset_request.

(** What the loop does with the same events: one call per chunk. *)
Definition dispatch_per_chunk (target : bytes) (chunks : list bytes) : M unit :=
  set_request "POST" target ;;
  set_state WAITING_BODY ;;
  for_each chunks (_on_post target) ;;
  reset_request.

(** In [WAITING_BODY] the recorded request is a POST or a PUT with its
    target. *)
Definition body_phase_ok (self : HTTPProtocol) : Prop :=
  _state self = WAITING_BODY ->
  (_method self = Some "POST" \/ _method self = Some "PUT") /\
  exists target, _target self = Some target.

(** Between two requests: no request recorded. *)
Definition idle (self : HTTPProtocol) : Prop :=
  _state self = WAITING_HEADERS /\ _method self = None /\ _target self = None.


(** The prefixes of the GET routes, in the order [_on_get] tests them. *)
Definition get_prefixes : list bytes :=
  ["/authentification-done-with-success-on/"; "/messages-acknowledged/";
   "/messages-in-queue/"; "/messages-in-exchange/";
   "/queue-bound-to-exchange/"].

(** The prefixes of the routes, of any method, whose parameter is read
    with [target.split(b'/', maxsplit=2)[2]]. *)
Definition one_parameter_prefixes : list bytes :=
  ["/authentification-done-with-success-on/"; "/messages-acknowledged/";
   "/messages-in-queue/"; "/messages-in-exchange/"; "/add-message-on/"].

(** The object after a call on the broker left it in state [g]. *)
Definition with_global_state (g : gstate) (self : HTTPProtocol)
  : HTTPProtocol :=
  {| transport := transport self;
     _global_state := g;
     http_parser := http_parser self;
     _state := _state self;
     _method := _method self;
     _target := _target self;
     futures := futures self |}.

(** What an inspection route makes of the broker's answer, from the object
    [s] the broker call left: absent, 404; messages that [json.dumps]
    rejects or whose text does not encode, that exception and nothing
    written; else 200 with the JSON text and a newline. *)
Definition inspection_result (answer : option pyval) (s : HTTPProtocol)
    (out : result unit * HTTPProtocol) : Prop :=
  match answer with
  | None =>
      exists c frame,
        response_frame 404 ("not found" ++ LF)%string frame /\
        out = (Ok tt, after_response frame c s)
  | Some messages =>
      match json_dumps messages with
      | None => out = (Raise TypeError, s)
      | Some text =>
          match encode_utf8 text with
          | None => out = (Raise UnicodeEncodeError, s)
          | Some body =>
              exists c frame,
                response_frame 200 (body ++ LF)%string frame /\
                out = (Ok tt, after_response frame c s)
          end
      end
  end.

(** A computation that touches only the parser and the transport log, on
    which it appends one whole response when it returns and nothing when it
    raises. *)
Definition writer_outcome (m : M unit) : Prop :=
  forall self,
    let out := m self in
    same_request self (snd out) /\
    futures (snd out) = futures self /\
    _global_state (snd out) = _global_state self /\
    match fst out with
    | Ok _ => exists status body frame,
        In status status_codes /\
        response_frame status body frame /\
        written (transport (snd out)) = written (transport self) ++ frame
    | Raise _ => written (transport (snd out)) = written (transport self)
    end.

(** The events the loop body has no branch for in the current phase. *)
Definition unhandled (event : h11_event) (self : HTTPProtocol) : Prop :=
  match event with
  | Request _ _ => _state self = WAITING_BODY
  | Data _ => _state self = WAITING_HEADERS
  | EndOfMessage => False
  | Response _ _ | ConnectionClosed | PAUSED => True
  end.

End Protocol.

(** ** A concrete environment, for evaluating the protocol on examples *)

Module Sample.

(** The sending side of a server connection as h11 keeps it: a response may
    be started once; after it only body data within the declared
    Content-Length is accepted; a refused event leaves the side in error. *)
Inductive our_state : Type :=
| SEND_RESPONSE
| SEND_BODY (remaining : nat)
| ERROR.

Definition strict_send (c : our_state) (event : h11_event)
  : result unit * our_state :=
  match c, event with
  | SEND_RESPONSE, Response _ headers =>
      match content_length headers with
      | Some n => (Ok tt, SEND_BODY n)
      | None => (Raise ProtocolError, ERROR)
      end
  | SEND_BODY n, Data data =>
      if (String.length data <=? n)%nat
      then (Ok tt, SEND_BODY (n - String.length data))
      else (Raise ProtocolError, ERROR)
  | _, _ => (Raise ProtocolError, ERROR)
  end.

#[global] Instance strict_h11 : H11 :=
  {| conn := our_state; send := strict_send |}.

(** A broker that knows its exchanges and numbers the messages published. *)
Record broker : Type := mkBroker {
  exchanges : list str;
  published : list (str * pyval * bytes);
}.

Definition broker_publish (g : broker) (exchange : str) (headers : pyval)
    (body : bytes) : result (option Z) * broker :=
  if existsb (String.eqb exchange) (exchanges g)
  then (Ok (Some (Z.of_nat (List.length (published g)))),
        mkBroker (exchanges g) (published g ++ [(exchange, headers, body)]))
  else (Ok None, g).

Definition broker_messages (g : broker) (name : str)
  : result (option pyval) * broker :=
  if existsb (String.eqb name) (exchanges g)
  then (Ok (Some (PList [])), g)
  else (Ok None, g).

#[global] Instance broker_state : GlobalState :=
  {| gstate := broker;
     get_messages_of_queue := broker_messages;
     get_messages_of_exchange := broker_messages;
     publish_message := broker_publish;
     delete_messages_of_queue := fun g _ => (Ok tt, g) |}.

Definition DQ : string := String "034"%char EmptyString.

(** The document [{"headers": {}, "body": "hi"}], in two parts. *)
Definition hi_head : bytes :=
  ("{" ++ DQ ++ "headers" ++ DQ ++ ": {}, ")%string.

Definition hi_tail : bytes :=
  (DQ ++ "body" ++ DQ ++ ": " ++ DQ ++ "hi" ++ DQ ++ "}")%string.

Definition hi_document : bytes := (hi_head ++ hi_tail)%string.

Definition hi_message : pyval :=
  PDict [("headers", PDict []); ("body", PStr "hi")].

Fixpoint is_ascii (s : bytes) : bool :=
  match s with
  | EmptyString => true
  | String a s' => (nat_of_ascii a <? 128)%nat && is_ascii s'
  end.

(** The runtime on the inputs of the examples: ASCII text, plain decimal
    numbers, and the JSON documents named above. *)
#[global] Instance runtime : PyRuntime :=
  {| decode_utf8 := fun b => if is_ascii b then Some b else None;
     encode_utf8 := fun s => if is_ascii s then Some s else None;
     int_of_str := fun s => option_map Z.of_int (NilZero.int_of_string s);
     json_loads := fun s => if String.eqb s hi_document then Some hi_message else None;
     json_dumps := fun v => match v with PList [] => Some "[]" | _ => None end;
     format_date_time := "Thu, 01 Jan 1970 00:00:00 GMT" |}.

(** A fresh connection against a broker with the single exchange [E]. *)
Definition fresh : HTTPProtocol :=
  init (mkBroker ["E"] []) SEND_RESPONSE.

End Sample.


Notation "x <- m ;; k" := (bind m (fun x => k))
  (at level 61, m at next level, right associativity).
Notation "m ;; k" := (bind m (fun _ => k))
  (at level 61, right associativity).

(** * Properties *)

Create HintDb proto.
Create HintDb frames.

(** ** Strings and numbers *)

Lemma startswith_app (s p : bytes) :
  startswith s p = true -> exists rest, s = (p ++ rest)%string.
Proof.
  revert s; induction p as [|b p IH]; intros s H.
  - exists s; reflexivity.
  - destruct s as [|a s]; simpl in H; [discriminate|].
    apply andb_true_iff in H as [Hab Hs].
    apply Ascii.eqb_eq in Hab; subst b.
    destruct (IH _ Hs) as [rest ->].
    exists rest; reflexivity.
Qed.

Lemma to_uint_not_nil (n : nat) : Nat.to_uint n <> Decimal.Nil.
Proof.
  intros H.
  assert (E : Nat.of_uint (Nat.to_uint n) = n) by apply DecimalNat.Unsigned.of_to.
  destruct n as [|n].
  - discriminate H.
  - rewrite H in E; discriminate E.
Qed.

Lemma str_of_nat_parses (n : nat) :
  option_map Nat.of_uint (NilZero.uint_of_string (str_of_nat n)) = Some n.
Proof.
  unfold str_of_nat.
  rewrite NilZero.usu by apply to_uint_not_nil.
  simpl; f_equal; apply DecimalNat.Unsigned.of_to.
Qed.

Lemma str_of_int_parses (z : Z) :
  option_map Z.of_int (NilZero.int_of_string (str_of_int z)) = Some z.
Proof.
  unfold str_of_int.
  destruct z as [|p|p]; simpl Z.to_int.
  - reflexivity.
  - rewrite NilZero.isi.
    + simpl; f_equal. apply (DecimalZ.of_to (Z.pos p)).
    + intros H; injection H as H.
      assert (E := DecimalPos.Unsigned.of_to p).
      unfold Pos.to_uint in *. rewrite H in E; discriminate E.
    + discriminate.
  - rewrite NilZero.isi.
    + simpl; f_equal. apply (DecimalZ.of_to (Z.neg p)).
    + discriminate.
    + intros H; injection H as H.
      assert (E := DecimalPos.Unsigned.of_to p).
      unfold Pos.to_uint in *. rewrite H in E; discriminate E.
Qed.

Section Properties.

Context {h11 : H11} {gs : GlobalState} {py : PyRuntime}.

(** ** The response writers *)

Lemma headers_well_formed (date : bytes) (body : bytes) :
  well_formed_headers
    [("Date", date); ("Server", "whatever");
     ("Content-Length", str_of_nat (String.length body));
     ("Connection", "close")] body.
Proof.
  split; try reflexivity.
  unfold content_length; simpl. apply str_of_nat_parses.
Qed.

Lemma no_content_headers_well_formed (date : bytes) :
  well_formed_headers
    [("Date", date); ("Server", "whatever"); ("Content-Length", "0");
     ("Connection", "close")] EmptyString.
Proof. exact (headers_well_formed date EmptyString). Qed.

(** Whatever the parser answers, the body writer writes one whole response
    or nothing, and touches nothing else but the parser. *)
Lemma with_body_cases (status : Z) (body : bytes) (self : HTTPProtocol) :
  (exists c frame,
      response_frame status body frame /\
      _send_http_response_with_body status body self
      = (Ok tt, after_response frame c self)) \/
  (exists e c,
      _send_http_response_with_body status body self
      = (Raise e, after_response [] c self)).
Proof.
  unfold _send_http_response_with_body, bind, http_parser_send, transport_write.
  simpl.
  destruct (send (http_parser self) _) as [[[]|e] c1] eqn:E1; simpl.
  - destruct (send c1 (Data body)) as [[[]|e] c2] eqn:E2; simpl.
    + left. eexists c2, _. split.
      * apply frame_with_body, headers_well_formed.
      * unfold after_response; simpl. rewrite <- app_assoc. reflexivity.
    + right. exists e, c2. unfold after_response; simpl.
      rewrite app_nil_r. destruct self as [[w cl] g c st m t f]; reflexivity.
  - right. exists e, c1. unfold after_response; simpl.
    rewrite app_nil_r. destruct self as [[w cl] g c st m t f]; reflexivity.
Qed.

Lemma no_content_cases (self : HTTPProtocol) :
  (exists c frame,
      response_frame 204 EmptyString frame /\
      _send_http_response_no_content self
      = (Ok tt, after_response frame c self)) \/
  (exists e c,
      _send_http_response_no_content self
      = (Raise e, after_response [] c self)).
Proof.
  unfold _send_http_response_no_content, bind, http_parser_send, transport_write.
  simpl.
  destruct (send (http_parser self) _) as [[[]|e] c1] eqn:E1; simpl.
  - left. eexists c1, _. split.
    + apply frame_no_content, no_content_headers_well_formed.
    + reflexivity.
  - right. exists e, c1. unfold after_response; simpl.
    rewrite app_nil_r. destruct self as [[w cl] g c st m t f]; reflexivity.
Qed.

(** A ready parser takes the response. *)
Lemma with_body_ready (status : Z) (body : bytes) (self : HTTPProtocol) :
  ready (http_parser self) ->
  exists c frame,
    response_frame status body frame /\
    _send_http_response_with_body status body self
    = (Ok tt, after_response frame c self).
Proof.
  intros R.
  destruct (R status
              [("Date", format_date_time); ("Server", "whatever");
               ("Content-Length", str_of_nat (String.length body));
               ("Connection", "close")] body) as (c1 & E1 & c2 & E2).
  { apply headers_well_formed. }
  unfold _send_http_response_with_body, bind, http_parser_send, transport_write.
  simpl. rewrite E1; simpl. rewrite E2; simpl.
  eexists c2, _. split.
  - apply frame_with_body, headers_well_formed.
  - unfold after_response; simpl. rewrite <- app_assoc. reflexivity.
Qed.

Lemma no_content_ready (self : HTTPProtocol) :
  ready (http_parser self) ->
  exists c frame,
    response_frame 204 EmptyString frame /\
    _send_http_response_no_content self
    = (Ok tt, after_response frame c self).
Proof.
  intros R.
  destruct (R 204%Z
              [("Date", format_date_time); ("Server", "whatever");
               ("Content-Length", "0"); ("Connection", "close")]
              EmptyString) as (c1 & E1 & _).
  { apply no_content_headers_well_formed. }
  unfold _send_http_response_no_content, bind, http_parser_send, transport_write.
  simpl. rewrite E1; simpl.
  eexists c1, _. split.
  - apply frame_no_content, no_content_headers_well_formed.
  - reflexivity.
Qed.

(** ** Effects of the handlers on the transport log *)

Lemma same_request_refl (self : HTTPProtocol) : same_request self self.
Proof. repeat split. Qed.

Lemma silent_refl (self : HTTPProtocol) : silent self self.
Proof. split; reflexivity. Qed.

Lemma same_request_trans (a b c : HTTPProtocol) :
  same_request a b -> same_request b c -> same_request a c.
Proof.
  intros (H1 & H2 & H3 & H4) (K1 & K2 & K3 & K4).
  repeat split; congruence.
Qed.

Lemma silent_trans (a b c : HTTPProtocol) :
  silent a b -> silent b c -> silent a c.
Proof. intros [H1 H2] [K1 K2]; split; congruence. Qed.

Lemma silent_responded (a b c : HTTPProtocol) :
  silent a b -> responded b c -> responded a c.
Proof.
  intros [H1 H2] (status & body & frame & S & F & W & P).
  exists status, body, frame; repeat split; congruence.
Qed.

Lemma silent_deferred (a b c : HTTPProtocol) :
  silent a b -> deferred b c -> deferred a c.
Proof.
  intros [H1 H2] (w & W & P). exists w; split; congruence.
Qed.

Lemma quiet_ret {A} (a : A) : quiet (ret a).
Proof. intros self; split; [apply same_request_refl | apply silent_refl]. Qed.

Lemma quiet_raise {A} (e : exn) : quiet (raise e : M A).
Proof. intros self; split; [apply same_request_refl | apply silent_refl]. Qed.

Lemma quiet_lift {A} (r : result A) : quiet (lift r).
Proof. intros self; split; [apply same_request_refl | apply silent_refl]. Qed.

Lemma quiet_or_raise {A} (o : option A) (e : exn) : quiet (or_raise o e).
Proof. destruct o; [apply quiet_ret | apply quiet_raise]. Qed.

Lemma quiet_global_state_call {A} (op : gstate -> result A * gstate) :
  quiet (global_state_call op).
Proof.
  intros self. unfold global_state_call.
  destruct (op (_global_state self)) as [r g]; simpl.
  repeat split.
Qed.

Lemma quiet_bind {A B} (m : M A) (k : A -> M B) :
  quiet m -> (forall a, quiet (k a)) -> quiet (bind m k).
Proof.
  intros Hm Hk self. unfold bind.
  destruct (Hm self) as [R1 S1].
  destruct (m self) as [[a|e] s1]; simpl in *.
  - destruct (Hk a s1) as [R2 S2].
    split; [eapply same_request_trans | eapply silent_trans]; eassumption.
  - split; assumption.
Qed.

Lemma quiet_encode_value (v : pyval) : quiet (encode_value v).
Proof.
  destruct v; simpl; try apply quiet_raise.
  apply quiet_or_raise.
Qed.

Lemma outcome_raise (e : exn) : handler_outcome (raise e).
Proof. intros self; split; [apply same_request_refl | apply silent_refl]. Qed.

Lemma outcome_bind {A} (m : M A) (k : A -> M unit) :
  quiet m -> (forall a, handler_outcome (k a)) -> handler_outcome (bind m k).
Proof.
  intros Hm Hk self. unfold bind.
  destruct (Hm self) as [R1 S1].
  destruct (m self) as [[a|e] s1]; simpl in *.
  - destruct (Hk a s1) as [R2 O2].
    split; [eapply same_request_trans; eassumption|].
    destruct (fst (k a s1)).
    + destruct O2 as [O2|O2].
      * left; eapply silent_responded; eassumption.
      * right; eapply silent_deferred; eassumption.
    + eapply silent_trans; eassumption.
  - split; assumption.
Qed.

Lemma outcome_ensure_future (w : wait_call) : handler_outcome (ensure_future w).
Proof.
  intros self; split; [repeat split|]. simpl.
  right. exists w; split; reflexivity.
Qed.

Lemma outcome_with_body (status : Z) (body : bytes) :
  In status status_codes ->
  handler_outcome (_send_http_response_with_body status body).
Proof.
  intros S self.
  destruct (with_body_cases status body self)
    as [(c & frame & F & E)|(e & c & E)]; rewrite E; simpl.
  - split; [repeat split|].
    left. exists status, body, frame. repeat split; assumption.
  - split; [repeat split|].
    split; simpl; [apply app_nil_r | reflexivity].
Qed.

Lemma outcome_no_content : handler_outcome _send_http_response_no_content.
Proof.
  intros self.
  destruct (no_content_cases self) as [(c & frame & F & E)|(e & c & E)];
    rewrite E; simpl.
  - split; [repeat split|].
    left. exists 204%Z, EmptyString, frame.
    repeat split; [simpl; tauto | assumption].
  - split; [repeat split|].
    split; simpl; [apply app_nil_r | reflexivity].
Qed.

#[local] Hint Resolve quiet_ret quiet_raise quiet_lift quiet_or_raise
  quiet_global_state_call quiet_encode_value outcome_raise
  outcome_ensure_future outcome_no_content : proto.

(** Walks a handler body: quiet steps in sequence, then a tail that is a
    response writer, a registration or a raise. *)
Ltac quiet_step :=
  repeat first
    [ apply quiet_bind; [|intros ?]
    | solve [auto with proto] ].

Ltac walk_handler :=
  repeat match goal with
    | |- handler_outcome (bind _ _) =>
        apply outcome_bind; [solve [quiet_step] | intros ?]
    | |- handler_outcome (if ?b then _ else _) => destruct b
    | |- handler_outcome (match ?x with _ => _ end) => destruct x
    | |- handler_outcome (_send_http_response_with_body _ _) =>
        apply outcome_with_body; simpl; tauto
    | |- handler_outcome _ => solve [auto with proto]
    end.

Lemma outcome_not_found : handler_outcome _send_http_response_not_found.
Proof. unfold _send_http_response_not_found; walk_handler. Qed.

Lemma outcome_ok (body : bytes) : handler_outcome (_send_http_response_ok body).
Proof. unfold _send_http_response_ok; walk_handler. Qed.

Lemma outcome_send_messages (messages : option pyval) :
  handler_outcome (send_messages messages).
Proof.
  unfold send_messages, encode; destruct messages;
    [|apply outcome_not_found].
  walk_handler. apply outcome_ok.
Qed.

Lemma outcome_on_get (target : bytes) : handler_outcome (_on_get target).
Proof.
  unfold _on_get, index, decode.
  walk_handler;
    first [apply outcome_send_messages | apply outcome_not_found].
Qed.

Lemma outcome_on_post (target data : bytes) :
  handler_outcome (_on_post target data).
Proof.
  unfold _on_post, index, decode.
  walk_handler; first [apply outcome_ok | apply outcome_not_found].
Qed.

Lemma outcome_on_delete (target : bytes) : handler_outcome (_on_delete target).
Proof.
  unfold _on_delete, index, decode.
  walk_handler; apply outcome_not_found.
Qed.

Lemma outcome_on_put (target : option bytes) (data : bytes) :
  handler_outcome (_on_put target data).
Proof. apply outcome_not_found. Qed.

(** ** The loop body, event by event *)

Lemma handler_same_request (m : M unit) (self : HTTPProtocol) :
  handler_outcome m ->
  _state (snd (m self)) = _state self /\
  _method (snd (m self)) = _method self /\
  _target (snd (m self)) = _target self.
Proof.
  intros H. destruct (H self) as [(S1 & S2 & S3 & _) _]. auto.
Qed.

Lemma loop_body_end_of_message (self : HTTPProtocol) :
  loop_body EndOfMessage self = reset_request self.
Proof. reflexivity. Qed.

Lemma loop_body_get (self : HTTPProtocol) (target : bytes) :
  _state self = WAITING_HEADERS ->
  loop_body (Request "GET" target) self
  = (_on_get target ;; ret tt) (snd (set_request "GET" target self)).
Proof.
  intros S. destruct self as [tr g c st m tg fs]; simpl in S; subst st.
  unfold loop_body, request_block, bind, get_state, get_method; simpl.
  destruct (_on_get target _) as [[[]|e] s1]; reflexivity.
Qed.

Lemma loop_body_delete (self : HTTPProtocol) (target : bytes) :
  _state self = WAITING_HEADERS ->
  loop_body (Request "DELETE" target) self
  = (_on_delete target ;; ret tt) (snd (set_request "DELETE" target self)).
Proof.
  intros S. destruct self as [tr g c st m tg fs]; simpl in S; subst st.
  unfold loop_body, request_block, bind, get_state, get_method; simpl.
  destruct (_on_delete target _) as [[[]|e] s1]; reflexivity.
Qed.

Lemma loop_body_post (self : HTTPProtocol) (target : bytes) :
  _state self = WAITING_HEADERS ->
  loop_body (Request "POST" target) self
  = (set_request "POST" target ;; set_state WAITING_BODY) self.
Proof.
  intros S.
  unfold loop_body, request_block, bind, get_state, get_method; simpl.
  rewrite S; reflexivity.
Qed.

Lemma loop_body_put (self : HTTPProtocol) (target : bytes) :
  _state self = WAITING_HEADERS ->
  loop_body (Request "PUT" target) self
  = (set_request "PUT" target ;; set_state WAITING_BODY) self.
Proof.
  intros S.
  unfold loop_body, request_block, bind, get_state, get_method; simpl.
  rewrite S; reflexivity.
Qed.

(** A method the loop does not know is recorded and nothing else happens. *)
Lemma loop_body_other_method (self : HTTPProtocol) (method target : bytes) :
  _state self = WAITING_HEADERS ->
  String.eqb method "GET" = false -> String.eqb method "DELETE" = false ->
  String.eqb method "POST" = false -> String.eqb method "PUT" = false ->
  loop_body (Request method target) self = set_request method target self.
Proof.
  intros S G D P U.
  unfold loop_body, request_block, bind, get_state, get_method; simpl.
  rewrite S; simpl. rewrite G, D, P, U; reflexivity.
Qed.

(** Body data outside [WAITING_BODY] is dropped. *)
Lemma loop_body_data_ignored (self : HTTPProtocol) (data : bytes) :
  _state self = WAITING_HEADERS ->
  loop_body (Data data) self = (Ok tt, self).
Proof.
  intros S.
  unfold loop_body, request_block, data_block, bind, get_state; simpl.
  rewrite S; reflexivity.
Qed.

Lemma loop_body_data_post (self : HTTPProtocol) (target data : bytes) :
  _state self = WAITING_BODY ->
  _method self = Some "POST" -> _target self = Some target ->
  loop_body (Data data) self = _on_post target data self.
Proof.
  intros S Hm Ht. destruct self as [tr g c st m tg fs]; simpl in *; subst.
  unfold loop_body, request_block, data_block, bind, get_state, get_method,
    get_target; simpl.
  destruct (_on_post target data _) as [[[]|e] s1]; reflexivity.
Qed.

Lemma loop_body_data_put (self : HTTPProtocol) (data : bytes) :
  _state self = WAITING_BODY ->
  _method self = Some "PUT" ->
  loop_body (Data data) self = _on_put (_target self) data self.
Proof.
  intros S Hm. destruct self as [tr g c st m tg fs]; simpl in *; subst.
  unfold loop_body, request_block, data_block, bind, get_state, get_method,
    get_target; simpl.
  destruct (_on_put tg data _) as [[[]|e] s1]; reflexivity.
Qed.

(** Once in [WAITING_BODY], every event but the end of message leaves the
    phase there, also when its handler raises. *)
Lemma loop_body_stays_in_body (event : h11_event) (self : HTTPProtocol) :
  _state self = WAITING_BODY ->
  event <> EndOfMessage ->
  _state (snd (loop_body event self)) = WAITING_BODY.
Proof.
  intros S N.
  destruct event; try contradiction;
    try (unfold loop_body, request_block, data_block, bind, get_state; simpl;
         rewrite S; simpl; first [exact S | reflexivity]).
  destruct (bytes_is (_method self) "POST") eqn:P.
  - destruct (_target self) as [t|] eqn:T.
    + destruct (_method self) as [m|] eqn:Hm; [|discriminate P].
      apply String.eqb_eq in P; subst m.
      rewrite (loop_body_data_post self data S Hm T).
      destruct (handler_same_request self (outcome_on_post t data)) as [E _].
      congruence.
    + unfold loop_body, request_block, data_block, bind, get_state, get_method,
        get_target; simpl.
      rewrite S; simpl. rewrite P, T; simpl. exact S.
  - destruct (bytes_is (_method self) "PUT") eqn:U.
    + destruct (_method self) as [m|] eqn:Hm; [|discriminate U].
      apply String.eqb_eq in U; subst m.
      rewrite (loop_body_data_put self data S Hm).
      destruct (handler_same_request self (outcome_on_put (_target self) data))
        as [E _].
      congruence.
    + unfold loop_body, request_block, data_block, bind, get_state, get_method,
        get_target; simpl.
      rewrite S; simpl. rewrite P, U; simpl. exact S.
Qed.

Lemma data_received_stays_in_body (events : list (result h11_event))
    (self : HTTPProtocol) :
  _state self = WAITING_BODY ->
  ~ In (Ok EndOfMessage) events ->
  _state (snd (_data_received events self)) = WAITING_BODY.
Proof.
  revert self; induction events as [|[event|e] rest IH]; intros self S N.
  - exact S.
  - simpl. unfold bind.
    assert (S1 : _state (snd (loop_body event self)) = WAITING_BODY).
    { apply loop_body_stays_in_body; [exact S|].
      intros ->. apply N; left; reflexivity. }
    destruct (loop_body event self) as [[[]|e] s1]; simpl in *.
    + apply IH; [exact S1|]. intros H; apply N; right; exact H.
    + exact S1.
  - exact S.
Qed.

(** C6. An end-of-message event, in either phase, returns the phase to
    [WAITING_HEADERS] and clears method and target, and does nothing else;
    over any sequence of events with no end of message in it the phase
    does not come back from [WAITING_BODY] to [WAITING_HEADERS]; in
    [WAITING_HEADERS] a GET or DELETE header-complete event runs its
    handler on the recorded request and leaves the phase as it is, and a
    POST or PUT header-complete event records the request and moves the
    phase to [WAITING_BODY]. *)
Theorem phase_transitions :
  (forall self,
      exists self',
        loop_body EndOfMessage self = (Ok tt, self') /\
        _state self' = WAITING_HEADERS /\
        _method self' = None /\ _target self' = None /\
        silent self self') /\
  (forall events self,
      ~ In (Ok EndOfMessage) events ->
      _state (snd (_data_received events self)) = WAITING_HEADERS ->
      _state self = WAITING_HEADERS) /\
  (forall self target,
      _state self = WAITING_HEADERS ->
      (loop_body (Request "GET" target) self
       = (_on_get target ;; ret tt) (snd (set_request "GET" target self)) /\
       _state (snd (loop_body (Request "GET" target) self)) = WAITING_HEADERS) /\
      (loop_body (Request "DELETE" target) self
       = (_on_delete target ;; ret tt) (snd (set_request "DELETE" target self)) /\
       _state (snd (loop_body (Request "DELETE" target) self)) = WAITING_HEADERS)) /\
  (forall self method target,
      _state self = WAITING_HEADERS ->
      method = "POST" \/ method = "PUT" ->
      exists self',
        loop_body (Request method target) self = (Ok tt, self') /\
        _state self' = WAITING_BODY /\
        _method self' = Some method /\ _target self' = Some target /\
        silent self self').
Proof.
  split; [|split; [|split]].
  - intros self. eexists. rewrite loop_body_end_of_message.
    split; [reflexivity|]. repeat split.
  - intros events self N E.
    destruct (_state self) eqn:S; [reflexivity|].
    rewrite (data_received_stays_in_body events self S N) in E.
    discriminate E.
  - intros self target S. split; split.
    + apply loop_body_get; exact S.
    + rewrite (loop_body_get self target S). unfold bind.
      destruct (handler_same_request (snd (set_request "GET" target self))
                  (outcome_on_get target)) as [E _].
      destruct (_on_get target _) as [[[]|e] s1]; simpl in *; congruence.
    + apply loop_body_delete; exact S.
    + rewrite (loop_body_delete self target S). unfold bind.
      destruct (handler_same_request (snd (set_request "DELETE" target self))
                  (outcome_on_delete target)) as [E _].
      destruct (_on_delete target _) as [[[]|e] s1]; simpl in *; congruence.
  - intros self method target S [-> | ->].
    + eexists. rewrite (loop_body_post self target S).
      split; [reflexivity|]. repeat split.
    + eexists. rewrite (loop_body_put self target S).
      split; [reflexivity|]. repeat split.
Qed.

(** ** Whole requests *)

Lemma responded_silent (a b c : HTTPProtocol) :
  responded a b -> silent b c -> responded a c.
Proof.
  intros (status & body & frame & S & F & W & P) [H1 H2].
  exists status, body, frame; repeat split; congruence.
Qed.

Lemma deferred_silent (a b c : HTTPProtocol) :
  deferred a b -> silent b c -> deferred a c.
Proof.
  intros (w & W & P) [H1 H2]. exists w; split; congruence.
Qed.

Lemma data_received_cons (event : h11_event) (rest : list (result h11_event))
    (self : HTTPProtocol) :
  _data_received (Ok event :: rest) self
  = match loop_body event self with
    | (Ok _, self') => _data_received rest self'
    | (Raise e, self') => (Raise e, self')
    end.
Proof. reflexivity. Qed.

Lemma data_received_end (self : HTTPProtocol) :
  _data_received [Ok EndOfMessage] self = reset_request self.
Proof. reflexivity. Qed.

(** Body chunks of a request whose handler ran at the header-complete
    event are skipped. *)
Lemma chunks_ignored (chunks : list bytes) (rest : list (result h11_event))
    (self : HTTPProtocol) :
  _state self = WAITING_HEADERS ->
  _data_received (map (fun d => Ok (Data d)) chunks ++ rest) self
  = _data_received rest self.
Proof.
  intros S. induction chunks as [|d chunks IH]; [reflexivity|].
  simpl map. simpl app. rewrite data_received_cons.
  rewrite (loop_body_data_ignored self d S). exact IH.
Qed.

(** In [WAITING_BODY] each chunk goes to the handler of the recorded
    method, as long as the calls return. *)
Lemma chunks_dispatched (handler : bytes -> M unit) (method target : bytes)
    (chunks : list bytes) (rest : list (result h11_event)) :
  (forall d, handler_outcome (handler d)) ->
  (forall s d, _state s = WAITING_BODY -> _method s = Some method ->
               _target s = Some target ->
               loop_body (Data d) s = handler d s) ->
  forall self,
    _state self = WAITING_BODY -> _method self = Some method ->
    _target self = Some target ->
    _data_received (map (fun d => Ok (Data d)) chunks ++ rest) self
    = (for_each chunks handler ;; _data_received rest) self.
Proof.
  intros O L. induction chunks as [|d chunks IH]; intros self S Hm Ht.
  - simpl. unfold bind, ret. reflexivity.
  - simpl map. simpl app. rewrite data_received_cons.
    rewrite (L self d S Hm Ht).
    destruct (handler_same_request self (O d)) as (E1 & E2 & E3).
    simpl for_each. unfold bind at 1 2.
    destruct (handler d self) as [[[]|e] s1]; simpl in *; [|reflexivity].
    rewrite IH by congruence. reflexivity.
Qed.

(** C2, as the code has it. The events of a POST request make the loop
    record the request, enter [WAITING_BODY], call the POST handler once for
    each body chunk, in order and with that chunk alone, for as long as the
    calls return, and reset at the end of the message.  When the body is
    one chunk this is one call on the whole body. *)
Theorem post_dispatch_per_chunk (self : HTTPProtocol) (target : bytes)
    (chunks : list bytes) :
  _state self = WAITING_HEADERS ->
  _data_received (request_events "POST" target chunks) self
  = dispatch_per_chunk target chunks self /\
  forall body,
    chunks = [body] ->
    _data_received (request_events "POST" target chunks) self
    = dispatch_assembled target chunks self.
Proof.
  intros S.
  assert (G : _data_received (request_events "POST" target chunks) self
              = dispatch_per_chunk target chunks self).
  { unfold request_events, dispatch_per_chunk.
    rewrite data_received_cons, (loop_body_post self target S).
    unfold bind; simpl.
    rewrite (@chunks_dispatched (_on_post target) "POST" target chunks
               [Ok EndOfMessage] (outcome_on_post target))
      by (intros; try apply loop_body_data_post; auto).
    unfold bind.
    destruct (for_each chunks (_on_post target) _) as [[[]|e] s1];
      reflexivity. }
  split; [exact G|].
  intros body ->. rewrite G.
  cbv [dispatch_per_chunk dispatch_assembled bind ret for_each set_request
       set_state String.concat].
  destruct (_on_post target body _) as [[[]|e] s1]; reflexivity.
Qed.

Lemma handler_then_reset (h : M unit) (s0 self self' : HTTPProtocol) :
  handler_outcome h ->
  silent self s0 ->
  match h s0 with
  | (Ok _, s1) => reset_request s1
  | (Raise e, s1) => (Raise e, s1)
  end = (Ok tt, self') ->
  responded self self' \/ deferred self self'.
Proof.
  intros O Q H. destruct (O s0) as [_ Out].
  destruct (h s0) as [[[]|e] s1]; simpl in *; [|discriminate H].
  injection H as <-.
  assert (Q1 : silent s1 (snd (reset_request s1))) by (split; reflexivity).
  destruct Out as [R|D].
  - left. eapply silent_responded; [exact Q|].
    eapply responded_silent; eassumption.
  - right. eapply silent_deferred; [exact Q|].
    eapply deferred_silent; eassumption.
Qed.

(** *** Which handler responds and which defers *)

Lemma responded_not_deferred (a b : HTTPProtocol) :
  responded a b -> deferred a b -> False.
Proof.
  intros (status & body & frame & _ & _ & _ & F) (w & _ & F').
  rewrite F in F'. apply (f_equal (@List.length wait_call)) in F'.
  rewrite length_app in F'. simpl in F'. lia.
Qed.

Lemma outcome_of_raise (P : HTTPProtocol -> HTTPProtocol -> Prop) (e : exn) :
  outcome_of P (raise e).
Proof. intros self; split; [apply same_request_refl | apply silent_refl]. Qed.

Lemma outcome_of_bind {A} (P : HTTPProtocol -> HTTPProtocol -> Prop)
    (m : M A) (k : A -> M unit) :
  (forall a b c, silent a b -> P b c -> P a c) ->
  quiet m -> (forall x, outcome_of P (k x)) -> outcome_of P (bind m k).
Proof.
  intros T Hm Hk self. unfold bind.
  destruct (Hm self) as [R1 S1].
  destruct (m self) as [[a|e] s1]; simpl in *.
  - destruct (Hk a s1) as [R2 O2].
    split; [eapply same_request_trans; eassumption|].
    destruct (fst (k a s1)).
    + eapply T; eassumption.
    + eapply silent_trans; eassumption.
  - split; assumption.
Qed.

Lemma responds_with_body (status : Z) (body : bytes) :
  In status status_codes ->
  outcome_of responded (_send_http_response_with_body status body).
Proof.
  intros S self.
  destruct (with_body_cases status body self)
    as [(c & frame & F & E)|(e & c & E)]; rewrite E; simpl.
  - split; [repeat split|].
    exists status, body, frame. repeat split; assumption.
  - split; [repeat split|].
    split; simpl; [apply app_nil_r | reflexivity].
Qed.

Lemma responds_no_content : outcome_of responded _send_http_response_no_content.
Proof.
  intros self.
  destruct (no_content_cases self) as [(c & frame & F & E)|(e & c & E)];
    rewrite E; simpl.
  - split; [repeat split|].
    exists 204%Z, EmptyString, frame.
    repeat split; [simpl; tauto | assumption].
  - split; [repeat split|].
    split; simpl; [apply app_nil_r | reflexivity].
Qed.

Lemma defers_ensure_future (w : wait_call) :
  outcome_of deferred (ensure_future w).
Proof.
  intros self; split; [repeat split|]. simpl.
  exists w; split; reflexivity.
Qed.

Ltac walk_responder :=
  repeat match goal with
    | |- outcome_of responded (bind _ _) =>
        apply outcome_of_bind;
        [exact silent_responded | solve [quiet_step] | intros ?]
    | |- outcome_of responded (match ?x with _ => _ end) => destruct x
    | |- outcome_of responded (_send_http_response_with_body _ _) =>
        apply responds_with_body; simpl; tauto
    | |- outcome_of responded _send_http_response_no_content =>
        apply responds_no_content
    | |- outcome_of responded (raise _) => apply outcome_of_raise
    end.

Ltac walk_registrar :=
  repeat match goal with
    | |- outcome_of deferred (bind _ _) =>
        apply outcome_of_bind;
        [exact silent_deferred | solve [quiet_step] | intros ?]
    | |- outcome_of deferred (match ?x with _ => _ end) => destruct x
    | |- outcome_of deferred (ensure_future _) => apply defers_ensure_future
    | |- outcome_of deferred (raise _) => apply outcome_of_raise
    end.

Lemma responds_not_found : outcome_of responded _send_http_response_not_found.
Proof. unfold _send_http_response_not_found; walk_responder. Qed.

Lemma responds_send_messages (messages : option pyval) :
  outcome_of responded (send_messages messages).
Proof.
  unfold send_messages, encode, _send_http_response_not_found,
    _send_http_response_ok.
  destruct messages; walk_responder.
Qed.

Lemma responds_on_post (target data : bytes) :
  outcome_of responded (_on_post target data).
Proof.
  unfold _on_post, index, decode, _send_http_response_not_found,
    _send_http_response_ok.
  destruct (startswith target "/add-message-on/"); walk_responder.
Qed.

Lemma responds_on_delete (target : bytes) :
  outcome_of responded (_on_delete target).
Proof.
  unfold _on_delete, index, decode, _send_http_response_not_found.
  destruct (startswith target "/messages-in-queue/"); walk_responder.
Qed.

Lemma responds_on_put (target : option bytes) (data : bytes) :
  outcome_of responded (_on_put target data).
Proof. apply responds_not_found. Qed.

(** [_on_get] defers on the three waiting routes and nowhere else. *)
Lemma on_get_defers_or_responds (target : bytes) :
  outcome_of (if deferred_route target then deferred else responded)
             (_on_get target).
Proof.
  unfold _on_get, deferred_route.
  destruct (startswith target "/authentification-done-with-success-on/")
    eqn:A; cbn [orb].
  { unfold index. walk_registrar. }
  destruct (startswith target "/messages-acknowledged/") eqn:K; cbn [orb].
  { unfold index, decode. walk_registrar. }
  destruct (startswith target "/messages-in-queue/") eqn:Q.
  { assert (B : startswith target "/queue-bound-to-exchange/" = false)
      by (destruct (startswith_app _ _ Q) as [rest ->]; reflexivity).
    rewrite B.
    unfold index, decode. walk_responder. apply responds_send_messages. }
  destruct (startswith target "/messages-in-exchange/") eqn:E.
  { assert (B : startswith target "/queue-bound-to-exchange/" = false)
      by (destruct (startswith_app _ _ E) as [rest ->]; reflexivity).
    rewrite B.
    unfold index, decode. walk_responder. apply responds_send_messages. }
  destruct (startswith target "/queue-bound-to-exchange/") eqn:B.
  { unfold decode. walk_registrar. }
  apply responds_not_found.
Qed.

Lemma outcome_then_reset (P : HTTPProtocol -> HTTPProtocol -> Prop)
    (h : M unit) (s0 self self' : HTTPProtocol) :
  (forall a b c, silent a b -> P b c -> P a c) ->
  (forall a b c, P a b -> silent b c -> P a c) ->
  outcome_of P h ->
  silent self s0 ->
  match h s0 with
  | (Ok _, s1) => reset_request s1
  | (Raise e, s1) => (Raise e, s1)
  end = (Ok tt, self') ->
  P self self'.
Proof.
  intros T1 T2 O Q H. destruct (O s0) as [_ Out].
  destruct (h s0) as [[[]|e] s1]; simpl in *; [|discriminate H].
  injection H as <-.
  assert (Q1 : silent s1 (snd (reset_request s1))) by (split; reflexivity).
  eapply T1; [exact Q|]. eapply T2; eassumption.
Qed.

(** The response of the bridge, on a parser ready for one. *)
Lemma bridge_response (self : HTTPProtocol) (future : result bool)
    (status : Z) (body : bytes) :
  bridge future = Some (status, body) ->
  ready (http_parser self) ->
  exists c frame,
    response_frame status body frame /\
    _on_get_done future self = (Ok tt, after_response frame c self).
Proof.
  intros B R.
  assert (W : forall st bd,
             exists c frame,
               response_frame st bd frame /\
               _send_http_response_with_body st bd self
               = (Ok tt, after_response frame c self))
    by (intros; apply with_body_ready; exact R).
  destruct future as [[|]|e]; simpl in B.
  - injection B as <- <-.
    destruct (no_content_ready self R) as (c & frame & F & E).
    exists c, frame; split; [exact F|].
    unfold _on_get_done, try_except, bind, lift; simpl.
    rewrite E; reflexivity.
  - injection B as <- <-.
    destruct (W 403%Z ("forbidden" ++ LF)%string) as (c & frame & F & E).
    exists c, frame; split; [exact F|].
    unfold _on_get_done, try_except, bind, lift; simpl.
    unfold _send_http_response_forbidden. rewrite E; reflexivity.
  - destruct e; try discriminate B.
    injection B as <- <-.
    destruct (W 504%Z ("timeout" ++ LF)%string) as (c & frame & F & E).
    exists c, frame; split; [exact F|].
    unfold _on_get_done, try_except, bind, lift; simpl.
    unfold _send_http_response_timeout. rewrite E; reflexivity.
Qed.

(** C3, as the code has it. For a request whose method is GET or DELETE
    (whatever its body), or POST or PUT with a body that arrives as exactly
    one chunk, processing the request's events without an exception does
    exactly one of two things. A GET on one of the three deferred routes
    writes nothing and registers exactly one wait, and the done callback
    of that wait, once it resolves true, false or times out, writes the one
    response the bridge assigns (on a parser ready for it). Every other
    request (another GET target, DELETE, POST, PUT) writes exactly one
    whole response, of a status among 200, 204, 403, 404, 500 and 504, and
    registers no wait. *)
Theorem one_response_per_request (self self' : HTTPProtocol)
    (method target : bytes) (chunks : list bytes) :
  _state self = WAITING_HEADERS ->
  method = "GET" \/ method = "DELETE" \/
  ((method = "POST" \/ method = "PUT") /\ exists body, chunks = [body]) ->
  _data_received (request_events method target chunks) self = (Ok tt, self') ->
  if String.eqb method "GET" && deferred_route target
  then deferred self self' /\ ~ responded self self' /\
       forall future status body,
         bridge future = Some (status, body) ->
         ready (http_parser self') ->
         exists c frame,
           response_frame status body frame /\
           _on_get_done future self' = (Ok tt, after_response frame c self')
  else responded self self' /\ ~ deferred self self'.
Proof.
  intros S Hm H. unfold request_events in H.
  rewrite data_received_cons in H.
  assert (Responds : responded self self' ->
                     responded self self' /\ ~ deferred self self').
  { intros R. split; [exact R|]. intros D.
    exact (responded_not_deferred R D). }
  destruct Hm as [-> | [-> | [[-> | ->] [body ->]]]].
  - rewrite (loop_body_get self target S) in H. unfold bind at 1 in H.
    destruct (handler_same_request (snd (set_request "GET" target self))
                (outcome_on_get target)) as [E _].
    assert (G := on_get_defers_or_responds target).
    assert (H' : match _on_get target (snd (set_request "GET" target self))
                 with
                 | (Ok _, s1) => reset_request s1
                 | (Raise e, s1) => (Raise e, s1)
                 end = (Ok tt, self')).
    { destruct (_on_get target _) as [[[]|e] s1]; simpl in *;
        [|discriminate H].
      rewrite chunks_ignored, data_received_end in H by congruence.
      exact H. }
    simpl andb. destruct (deferred_route target).
    + assert (D : deferred self self').
      { apply (outcome_then_reset (P := deferred) (h := _on_get target)
                 (s0 := snd (set_request "GET" target self)));
          [exact silent_deferred | exact deferred_silent | exact G
          | split; reflexivity | exact H']. }
      split; [exact D|]. split.
      * intros R. exact (responded_not_deferred R D).
      * intros future status body. apply bridge_response.
    + apply Responds.
      apply (outcome_then_reset (P := responded) (h := _on_get target)
               (s0 := snd (set_request "GET" target self)));
        [exact silent_responded | exact responded_silent | exact G
        | split; reflexivity | exact H'].
  - rewrite (loop_body_delete self target S) in H. unfold bind at 1 in H.
    destruct (handler_same_request (snd (set_request "DELETE" target self))
                (outcome_on_delete target)) as [E _].
    simpl andb. apply Responds.
    apply (outcome_then_reset (P := responded) (h := _on_delete target)
             (s0 := snd (set_request "DELETE" target self)));
      [exact silent_responded | exact responded_silent
      | apply responds_on_delete | split; reflexivity |].
    destruct (_on_delete target _) as [[[]|e] s1]; simpl in *;
      [|discriminate H].
    rewrite chunks_ignored, data_received_end in H by congruence. exact H.
  - rewrite (loop_body_post self target S) in H.
    set (s0 := snd (set_state WAITING_BODY
                      (snd (set_request "POST" target self)))).
    change ((set_request "POST" target ;; set_state WAITING_BODY) self)
      with (Ok tt, s0) in H.
    cbn [map app] in H. rewrite data_received_cons in H.
    rewrite (@loop_body_data_post s0 target body) in H by reflexivity.
    simpl andb. apply Responds.
    apply (outcome_then_reset (P := responded) (h := _on_post target body)
             (s0 := s0));
      [exact silent_responded | exact responded_silent
      | apply responds_on_post | split; reflexivity |].
    destruct (_on_post target body s0) as [[[]|e] s1];
      [rewrite data_received_end in H; exact H | discriminate H].
  - rewrite (loop_body_put self target S) in H.
    set (s0 := snd (set_state WAITING_BODY
                      (snd (set_request "PUT" target self)))).
    change ((set_request "PUT" target ;; set_state WAITING_BODY) self)
      with (Ok tt, s0) in H.
    cbn [map app] in H. rewrite data_received_cons in H.
    rewrite (@loop_body_data_put s0 body) in H by reflexivity.
    simpl andb. apply Responds.
    apply (outcome_then_reset (P := responded)
             (h := _on_put (_target s0) body) (s0 := s0));
      [exact silent_responded | exact responded_silent
      | apply responds_on_put | split; reflexivity |].
    destruct (_on_put (_target s0) body s0) as [[[]|e] s1];
      [rewrite data_received_end in H; exact H | discriminate H].
Qed.

(** ** Every write is a whole, well-formed response *)

Lemma keeps_of_outcome (m : M unit) : handler_outcome m -> keeps_framed m.
Proof.
  intros O self F. destruct (O self) as [_ Out].
  destruct (fst (m self)).
  - destruct Out as [(status & body & frame & S & R & W & _)|(w & W & _)].
    + rewrite W. eapply framed_snoc; eassumption.
    + rewrite W; exact F.
  - destruct Out as [W _]. rewrite W; exact F.
Qed.

Lemma keeps_bind {A B} (m : M A) (k : A -> M B) :
  keeps_framed m -> (forall a, keeps_framed (k a)) -> keeps_framed (bind m k).
Proof.
  intros Hm Hk self F. unfold bind.
  specialize (Hm self F).
  destruct (m self) as [[a|e] s1]; simpl in *.
  - apply Hk; exact Hm.
  - exact Hm.
Qed.

Lemma keeps_try_except {A} (m h : M A) (handled : exn -> bool) :
  keeps_framed m -> keeps_framed h -> keeps_framed (try_except m handled h).
Proof.
  intros Hm Hh self F. unfold try_except.
  specialize (Hm self F).
  destruct (m self) as [[a|e] s1]; simpl in *; [exact Hm|].
  destruct (handled e); [apply Hh; exact Hm | exact Hm].
Qed.

Lemma keeps_unchanged {A} (m : M A) :
  (forall self, written (transport (snd (m self))) = written (transport self)) ->
  keeps_framed m.
Proof. intros H self F. rewrite H; exact F. Qed.

Lemma keeps_ret {A} (a : A) : keeps_framed (ret a).
Proof. apply keeps_unchanged; reflexivity. Qed.

Lemma keeps_raise {A} (e : exn) : keeps_framed (raise e : M A).
Proof. apply keeps_unchanged; reflexivity. Qed.

Lemma keeps_lift {A} (r : result A) : keeps_framed (lift r).
Proof. apply keeps_unchanged; reflexivity. Qed.

Lemma keeps_get_state : keeps_framed get_state.
Proof. apply keeps_unchanged; reflexivity. Qed.

Lemma keeps_get_method : keeps_framed get_method.
Proof. apply keeps_unchanged; reflexivity. Qed.

Lemma keeps_get_target : keeps_framed get_target.
Proof. apply keeps_unchanged; reflexivity. Qed.

Lemma keeps_set_request (method target : bytes) :
  keeps_framed (set_request method target).
Proof. apply keeps_unchanged; reflexivity. Qed.

Lemma keeps_set_state (st : _RequestState) : keeps_framed (set_state st).
Proof. apply keeps_unchanged; reflexivity. Qed.

Lemma keeps_reset_request : keeps_framed reset_request.
Proof. apply keeps_unchanged; reflexivity. Qed.

Lemma keeps_transport_close : keeps_framed transport_close.
Proof. apply keeps_unchanged; reflexivity. Qed.

Lemma keeps_on_get (target : bytes) : keeps_framed (_on_get target).
Proof. apply keeps_of_outcome, outcome_on_get. Qed.

Lemma keeps_on_post (target data : bytes) : keeps_framed (_on_post target data).
Proof. apply keeps_of_outcome, outcome_on_post. Qed.

Lemma keeps_on_delete (target : bytes) : keeps_framed (_on_delete target).
Proof. apply keeps_of_outcome, outcome_on_delete. Qed.

Lemma keeps_on_put (target : option bytes) (data : bytes) :
  keeps_framed (_on_put target data).
Proof. apply keeps_of_outcome, outcome_on_put. Qed.

Lemma keeps_no_content : keeps_framed _send_http_response_no_content.
Proof. apply keeps_of_outcome, outcome_no_content. Qed.

Lemma keeps_forbidden : keeps_framed _send_http_response_forbidden.
Proof. apply keeps_of_outcome, outcome_with_body; simpl; tauto. Qed.

Lemma keeps_timeout : keeps_framed _send_http_response_timeout.
Proof. apply keeps_of_outcome, outcome_with_body; simpl; tauto. Qed.

Lemma keeps_internal_server_error :
  keeps_framed _send_http_internal_server_error.
Proof. apply keeps_of_outcome, outcome_with_body; simpl; tauto. Qed.

#[local] Hint Resolve keeps_ret keeps_raise keeps_lift keeps_get_state
  keeps_get_method keeps_get_target keeps_set_request keeps_set_state
  keeps_reset_request keeps_transport_close keeps_on_get keeps_on_post
  keeps_on_delete keeps_on_put keeps_no_content keeps_forbidden keeps_timeout
  keeps_internal_server_error : frames.

Ltac walk_frames :=
  repeat match goal with
    | |- keeps_framed (bind _ _) => apply keeps_bind; [|intros ?]
    | |- keeps_framed (try_except _ _ _) => apply keeps_try_except
    | |- keeps_framed (if ?b then _ else _) => destruct b
    | |- keeps_framed (match ?x with _ => _ end) => destruct x
    | |- keeps_framed _ => solve [auto with frames]
    end.

Lemma keeps_loop_body (event : h11_event) : keeps_framed (loop_body event).
Proof.
  unfold loop_body, request_block, data_block, end_of_message_block.
  walk_frames.
Qed.

Lemma keeps_data_received_inner (events : list (result h11_event)) :
  keeps_framed (_data_received events).
Proof.
  induction events as [|[event|e] rest IH]; simpl.
  - apply keeps_ret.
  - apply keeps_bind; [apply keeps_loop_body | intros _; exact IH].
  - apply keeps_raise.
Qed.

Lemma keeps_data_received (events : list (result h11_event)) :
  keeps_framed (data_received events).
Proof.
  intros self F. unfold data_received.
  assert (F1 := keeps_data_received_inner events self F).
  destruct (_data_received events self) as [[a|e] s1]; simpl in *;
    [exact F1|].
  destruct (is_exception e); [|exact F1].
  revert s1 F1.
  change (keeps_framed
            (_send_http_internal_server_error ;; transport_close ;;
             (raise e : M unit))).
  walk_frames.
Qed.

Lemma keeps_on_get_done (future : result bool) :
  keeps_framed (_on_get_done future).
Proof. unfold _on_get_done. walk_frames. Qed.

(** C5. On a connection, from the fresh object on and through any
    succession of received data and completed waits, the transport log is
    made of whole responses only, each of a status among 200, 204, 403,
    404, 500 and 504, whose head carries exactly the headers Date, Server,
    Content-Length and Connection in this order, with a Content-Length that
    is the byte length of the body written after it (no body and 0 for 204)
    and Connection: close. *)
Theorem every_response_well_formed (self : HTTPProtocol) :
  reachable self -> framed (written (transport self)).
Proof.
  induction 1 as [g c | self events _ IH | self future _ IH].
  - apply framed_nil.
  - apply keeps_data_received; exact IH.
  - apply keeps_on_get_done; exact IH.
Qed.

(** ** The wait bridge *)

(** C1. For each of the three outcomes the bridge knows (the wait resolved
    true, resolved false, or failed with the timeout), the done callback of
    a deferred GET, on a parser ready for a response, returns normally and
    writes exactly one response: the one of the status and body the bridge
    assigns (204 with no body, 403 "forbidden", 504 "timeout"). *)
Theorem on_get_done_bridge (self : HTTPProtocol) (future : result bool)
    (status : Z) (body : bytes) :
  bridge future = Some (status, body) ->
  ready (http_parser self) ->
  exists c frame,
    response_frame status body frame /\
    _on_get_done future self = (Ok tt, after_response frame c self).
Proof.
  intros B R.
  destruct future as [[|]|e]; simpl in B.
  - injection B as <- <-.
    destruct (no_content_ready self R) as (c & frame & F & E).
    exists c, frame; split; [exact F|].
    unfold _on_get_done, try_except, bind, lift; simpl.
    rewrite E; reflexivity.
  - injection B as <- <-.
    destruct (with_body_ready 403 ("forbidden" ++ LF)%string self R)
      as (c & frame & F & E).
    exists c, frame; split; [exact F|].
    unfold _on_get_done, try_except, bind, lift; simpl.
    unfold _send_http_response_forbidden. rewrite E; reflexivity.
  - destruct e; try discriminate B.
    injection B as <- <-.
    destruct (with_body_ready 504 ("timeout" ++ LF)%string self R)
      as (c & frame & F & E).
    exists c, frame; split; [exact F|].
    unfold _on_get_done, try_except, bind, lift; simpl.
    unfold _send_http_response_timeout. rewrite E; reflexivity.
Qed.

(** C9, as the code has it. A wait that fails with anything but the timeout
    makes the done callback raise that same failure at once: the object is
    left as it was, so nothing is written (no 500) and the transport is not
    closed by the callback. *)
Theorem on_get_done_other_failure (self : HTTPProtocol) (e : exn) :
  e <> WaitTimeout ->
  _on_get_done (Raise e) self = (Raise e, self).
Proof.
  intros N.
  unfold _on_get_done, try_except, bind, lift; simpl.
  destruct e; try reflexivity. contradiction N; reflexivity.
Qed.

(** ** Failures while processing received bytes *)

Lemma data_received_no_failure (events : list (result h11_event))
    (self self1 : HTTPProtocol) :
  _data_received events self = (Ok tt, self1) ->
  data_received events self = (Ok tt, self1).
Proof. intros H. unfold data_received. rewrite H. reflexivity. Qed.

(** A failure that is not an [Exception] passes through [data_received]
    untouched: no 500, no close. *)
Lemma data_received_base_exception (events : list (result h11_event))
    (self self1 : HTTPProtocol) (e : exn) :
  _data_received events self = (Raise e, self1) ->
  is_exception e = false ->
  data_received events self = (Raise e, self1).
Proof. intros H B. unfold data_received. rewrite H, B. reflexivity. Qed.

(** When the 500 response goes out, the transport is closed and the
    exception caught is raised again, with nothing else written and
    nothing processed a second time. *)
Lemma data_received_failure (events : list (result h11_event))
    (self self1 : HTTPProtocol) (e : exn) :
  _data_received events self = (Raise e, self1) ->
  is_exception e = true ->
  fst (_send_http_internal_server_error self1) = Ok tt ->
  exists self2 frame,
    data_received events self = (Raise e, self2) /\
    response_frame 500 ("internal server error" ++ LF)%string frame /\
    written (transport self2) = written (transport self1) ++ frame /\
    closed (transport self2) = true /\
    futures self2 = futures self1 /\
    _global_state self2 = _global_state self1.
Proof.
  intros H X E.
  unfold data_received. rewrite H, X. unfold bind.
  unfold _send_http_internal_server_error in *.
  destruct (with_body_cases 500 ("internal server error" ++ LF)%string self1)
    as [(c & frame & F & W)|(e' & c & W)]; rewrite W in *; simpl in E.
  - eexists _, frame. split; [reflexivity|]. repeat split. exact F.
  - discriminate E.
Qed.

(** C4 fails on the code. An exception raised while the received bytes are
    processed is caught by [data_received], which attempts the 500
    response; when the parser refuses that response, the refusal is what
    leaves [data_received]: the close that follows in the handler is not
    reached, the transport keeps the open/closed flag it had, nothing is
    written, and the exception that was caught is not the one raised. *)
Theorem data_received_close_skipped (events : list (result h11_event))
    (self self1 self2 : HTTPProtocol) (e e' : exn) :
  _data_received events self = (Raise e, self1) ->
  is_exception e = true ->
  _send_http_internal_server_error self1 = (Raise e', self2) ->
  data_received events self = (Raise e', self2) /\
  closed (transport self2) = closed (transport self1) /\
  written (transport self2) = written (transport self1).
Proof.
  intros H X E. split.
  - unfold data_received. rewrite H, X. unfold bind. rewrite E. reflexivity.
  - unfold _send_http_internal_server_error in E.
    destruct (with_body_cases 500 ("internal server error" ++ LF)%string
                self1) as [(c & frame & F & W)|(e1 & c & W)];
      rewrite W in E; [discriminate E|].
    injection E as _ <-. simpl. split; [reflexivity | apply app_nil_r].
Qed.

Lemma on_get_bad_tag (tag : bytes) (self : HTTPProtocol) :
  decode_utf8 tag = None \/
  (exists text, decode_utf8 tag = Some text /\ int_of_str text = None) ->
  exists e,
    _on_get ("/messages-acknowledged/" ++ tag)%string self = (Raise e, self) /\
    (e = UnicodeDecodeError \/ e = ValueError).
Proof.
  intros H. unfold _on_get, index, decode, bind; simpl.
  destruct H as [D | (text & D & I)]; rewrite D; simpl.
  - exists UnicodeDecodeError; auto.
  - rewrite I; simpl. exists ValueError; auto.
Qed.

(** C10. A GET on [/messages-acknowledged/<tag>] whose tag does not convert
    to an integer (the bytes are not UTF-8, or [int] rejects the text) is
    not answered 404: the conversion raises inside the handler, and, the
    parser being ready for a response, [data_received] writes the 500
    response and nothing else, closes the transport and raises the error
    again; no wait is registered. *)
Theorem get_acknowledged_bad_tag (self : HTTPProtocol) (tag : bytes)
    (more : list (result h11_event)) :
  _state self = WAITING_HEADERS ->
  decode_utf8 tag = None \/
  (exists text, decode_utf8 tag = Some text /\ int_of_str text = None) ->
  ready (http_parser self) ->
  exists e self' frame,
    data_received
      (Ok (Request "GET" ("/messages-acknowledged/" ++ tag)%string) :: more)
      self = (Raise e, self') /\
    (e = UnicodeDecodeError \/ e = ValueError) /\
    response_frame 500 ("internal server error" ++ LF)%string frame /\
    written (transport self') = written (transport self) ++ frame /\
    closed (transport self') = true /\
    futures self' = futures self.
Proof.
  intros S B R.
  set (target := ("/messages-acknowledged/" ++ tag)%string).
  set (s0 := snd (set_request "GET" target self)).
  destruct (on_get_bad_tag tag s0 B) as (e & G & He).
  assert (H : _data_received (Ok (Request "GET" target) :: more) self
              = (Raise e, s0)).
  { rewrite data_received_cons, (loop_body_get self target S).
    unfold bind. fold s0. unfold target. rewrite G. reflexivity. }
  destruct (with_body_ready 500 ("internal server error" ++ LF)%string s0 R)
    as (c & frame & F & W).
  exists e, (snd (transport_close (after_response frame c s0))), frame.
  split.
  - unfold data_received. rewrite H.
    replace (is_exception e) with true
      by (destruct He as [-> | ->]; reflexivity).
    unfold bind.
    unfold _send_http_internal_server_error. rewrite W. reflexivity.
  - repeat split; assumption.
Qed.

(** ** PUT *)

(** A body chunk of a PUT request is answered 404, and the broker is not
    called. *)
Lemma put_chunk_not_found (self : HTTPProtocol) (data : bytes) :
  _state self = WAITING_BODY -> _method self = Some "PUT" ->
  ready (http_parser self) ->
  exists c frame,
    response_frame 404 ("not found" ++ LF)%string frame /\
    loop_body (Data data) self = (Ok tt, after_response frame c self).
Proof.
  intros S Hm R. rewrite (loop_body_data_put self data S Hm).
  apply with_body_ready; exact R.
Qed.

(** A PUT request with no body chunk at all goes through the loop without
    any handler being called: nothing is written, no wait is registered. *)
Lemma put_without_body (self : HTTPProtocol) (target : bytes) :
  _state self = WAITING_HEADERS ->
  exists self',
    _data_received (request_events "PUT" target []) self = (Ok tt, self') /\
    silent self self' /\
    _global_state self' = _global_state self /\
    http_parser self' = http_parser self.
Proof.
  intros S. unfold request_events; cbn [map app].
  rewrite data_received_cons, (loop_body_put self target S).
  eexists; split; [reflexivity|]. repeat split.
Qed.

(** C8 fails on the code. A PUT request with an empty body yields no body
    chunk: whatever the target, the loop records the request, moves to
    [WAITING_BODY] and resets at the end of the message, and [_on_put] is
    never called. [data_received] returns normally; no response is written,
    no wait is registered, the broker and the parser are not touched. *)
Theorem put_empty_body_unanswered (self : HTTPProtocol) (target : bytes) :
  _state self = WAITING_HEADERS ->
  exists self',
    data_received (request_events "PUT" target []) self = (Ok tt, self') /\
    silent self self' /\
    _state self' = WAITING_HEADERS /\
    _global_state self' = _global_state self /\
    http_parser self' = http_parser self.
Proof.
  intros S.
  destruct (put_without_body self target S) as (self' & H & Q & G & C).
  exists self'. split; [apply data_received_no_failure; exact H|].
  repeat split; try assumption; try apply Q.
  unfold request_events in H; cbn [map app] in H.
  rewrite data_received_cons, (loop_body_put self target S) in H.
  unfold bind in H; simpl in H. injection H as <-. reflexivity.
Qed.

(** ** Publishing *)

(** C7. A POST on [/add-message-on/<exchange>] whose body decodes to a JSON
    object with a [headers] field and a text [body] field makes the handler
    publish that message (the headers, the body encoded to bytes) on the
    exchange named in the target. If the broker answers with no delivery tag
    the response is 404; otherwise it is 200 and its body is the delivery
    tag in decimal followed by a newline. *)
Theorem post_add_message (self : HTTPProtocol) (exchange data : bytes)
    (text name body_text : str) (d : list (str * pyval)) (headers : pyval)
    (body : bytes) (delivery_tag : option Z) (g' : gstate) :
  decode_utf8 data = Some text ->
  json_loads text = Some (PDict d) ->
  dict_get d "headers" = Some headers ->
  dict_get d "body" = Some (PStr body_text) ->
  encode_utf8 body_text = Some body ->
  decode_utf8 exchange = Some name ->
  publish_message (_global_state self) name headers body
  = (Ok delivery_tag, g') ->
  ready (http_parser self) ->
  exists self' frame,
    _on_post ("/add-message-on/" ++ exchange)%string data self
    = (Ok tt, self') /\
    _global_state self' = g' /\
    written (transport self') = written (transport self) ++ frame /\
    match delivery_tag with
    | None => response_frame 404 ("not found" ++ LF)%string frame
    | Some tag =>
        exists digits,
          option_map Z.of_int (NilZero.int_of_string digits) = Some tag /\
          response_frame 200 (digits ++ LF)%string frame
    end.
Proof.
  intros D J Hh Hb En Dx P R.
  unfold _on_post, index, decode, encode_value, encode, bind,
    global_state_call, lift, getitem; simpl.
  rewrite D; simpl. rewrite J; simpl. rewrite Dx; simpl.
  rewrite Hh; simpl. rewrite Hb; simpl. rewrite En; simpl.
  rewrite P; simpl.
  set (s1 := {| transport := transport self; _global_state := g';
                http_parser := http_parser self; _state := _state self;
                _method := _method self; _target := _target self;
                futures := futures self |}).
  destruct delivery_tag as [tag|].
  - destruct (with_body_ready 200 (str_of_int tag ++ LF)%string s1 R)
      as (c & frame & F & W).
    exists (after_response frame c s1), frame.
    unfold _send_http_response_ok. rewrite W.
    repeat split. exists (str_of_int tag).
    split; [apply str_of_int_parses | exact F].
  - destruct (with_body_ready 404 ("not found" ++ LF)%string s1 R)
      as (c & frame & F & W).
    exists (after_response frame c s1), frame.
    unfold _send_http_response_not_found. rewrite W.
    repeat split. exact F.
Qed.

End Properties.

(** * The statements on a concrete connection *)

Lemma strict_ready : ready Sample.SEND_RESPONSE.
Proof.
  intros status headers body H. simpl. rewrite H.
  eexists; split; [reflexivity|]. simpl. rewrite Nat.leb_refl.
  eexists; reflexivity.
Qed.

Lemma on_get_done_bridge_witness :
  bridge (Raise WaitTimeout) = Some (504%Z, ("timeout" ++ LF)%string) /\
  ready (http_parser Sample.fresh) /\
  exists c frame,
    response_frame 504 ("timeout" ++ LF)%string frame /\
    _on_get_done (Raise WaitTimeout) Sample.fresh
    = (Ok tt, after_response frame c Sample.fresh).
Proof.
  split; [reflexivity|]. split; [exact strict_ready|].
  apply (on_get_done_bridge Sample.fresh (Raise WaitTimeout));
    [reflexivity | exact strict_ready].
Defined.

(** C2, as stated, fails. The body [{"headers": {}, "body": "hi"}] of a POST
    on [/add-message-on/E] arrives as two chunks. The loop hands the first
    chunk alone to the handler: it is not a JSON document, the handler
    raises and nothing is published. One call on the assembled body would
    have published the message and returned. *)
Lemma post_body_in_two_chunks :
  let chunks := [Sample.hi_head; Sample.hi_tail] in
  let events := request_events "POST" "/add-message-on/E" chunks in
  String.concat EmptyString chunks = Sample.hi_document /\
  fst (_data_received events Sample.fresh) = Raise ValueError /\
  Sample.published (_global_state (snd (_data_received events Sample.fresh)))
  = [] /\
  fst (dispatch_assembled "/add-message-on/E" chunks Sample.fresh) = Ok tt /\
  Sample.published
    (_global_state (snd (dispatch_assembled "/add-message-on/E" chunks
                           Sample.fresh)))
  = [("E", PDict [], "hi")] /\
  _data_received events Sample.fresh
  <> dispatch_assembled "/add-message-on/E" chunks Sample.fresh.
Proof.
  cbv zeta. repeat split; try reflexivity.
  intros H. apply (f_equal fst) in H. vm_compute in H. discriminate H.
Qed.

Lemma post_dispatch_per_chunk_witness :
  _state Sample.fresh = WAITING_HEADERS /\
  _data_received
    (request_events "POST" "/add-message-on/E" [Sample.hi_document])
    Sample.fresh
  = dispatch_assembled "/add-message-on/E" [Sample.hi_document] Sample.fresh.
Proof.
  split; [reflexivity|].
  destruct (@post_dispatch_per_chunk _ _ _ Sample.fresh "/add-message-on/E"
              [Sample.hi_document] eq_refl) as [_ H].
  exact (H Sample.hi_document eq_refl).
Defined.

(** C3, as stated, fails. An OPTIONS request is processed without any
    response being written or any wait registered; and a GET on a deferred
    route whose wait then fails with an error other than the timeout has
    still no response after the done callback. *)
Lemma requests_without_response :
  (let r := data_received (request_events "OPTIONS" "/x" []) Sample.fresh in
   fst r = Ok tt /\ written (transport (snd r)) = [] /\ futures (snd r) = []) /\
  (let r := data_received (request_events "GET" "/messages-acknowledged/42" [])
              Sample.fresh in
   fst r = Ok tt /\ written (transport (snd r)) = [] /\
   futures (snd r) = [wait_message_acknoledged 42] /\
   written (transport (snd (_on_get_done (Raise (OtherError 0)) (snd r)))) = []).
Proof. repeat split. Qed.

Lemma one_response_per_request_witness :
  let post := request_events "POST" "/add-message-on/E" [Sample.hi_document] in
  let posted := snd (_data_received post Sample.fresh) in
  let get := request_events "GET" "/messages-acknowledged/42" [] in
  let waiting := snd (_data_received get Sample.fresh) in
  _state Sample.fresh = WAITING_HEADERS /\
  _data_received post Sample.fresh = (Ok tt, posted) /\
  (responded Sample.fresh posted /\ ~ deferred Sample.fresh posted) /\
  _data_received get Sample.fresh = (Ok tt, waiting) /\
  deferred Sample.fresh waiting /\ ~ responded Sample.fresh waiting.
Proof.
  cbv zeta.
  assert (S : _state Sample.fresh = WAITING_HEADERS) by reflexivity.
  assert (P : _data_received
                (request_events "POST" "/add-message-on/E"
                   [Sample.hi_document]) Sample.fresh
              = (Ok tt,
                 snd (_data_received
                        (request_events "POST" "/add-message-on/E"
                           [Sample.hi_document]) Sample.fresh)))
    by (vm_compute; reflexivity).
  assert (G : _data_received
                (request_events "GET" "/messages-acknowledged/42" [])
                Sample.fresh
              = (Ok tt,
                 snd (_data_received
                        (request_events "GET" "/messages-acknowledged/42" [])
                        Sample.fresh)))
    by (vm_compute; reflexivity).
  split; [exact S|]. split; [exact P|]. split.
  - pose proof (@one_response_per_request Sample.strict_h11
                  Sample.broker_state Sample.runtime Sample.fresh _ "POST"
                  "/add-message-on/E" [Sample.hi_document] S
                  (or_intror (or_intror
                     (conj (or_introl eq_refl)
                           (ex_intro _ Sample.hi_document eq_refl)))) P)
      as R.
    assert (B : String.eqb "POST" "GET" && deferred_route "/add-message-on/E"
                = false) by reflexivity.
    rewrite B in R. exact R.
  - split; [exact G|].
    pose proof (@one_response_per_request Sample.strict_h11
                  Sample.broker_state Sample.runtime Sample.fresh _ "GET"
                  "/messages-acknowledged/42" [] S (or_introl eq_refl) G)
      as R.
    assert (B : String.eqb "GET" "GET"
                && deferred_route "/messages-acknowledged/42" = true)
      by reflexivity.
    rewrite B in R. destruct R as (D & N & _).
    split; assumption.
Defined.

(** A PUT body in two chunks: the first is answered 404, the second makes
    the parser refuse a second response and the handler raise; the parser
    refuses the 500 response too, and the transport is left open. *)
Lemma data_received_close_skipped_witness :
  let events := [Ok (Request "PUT" "/x"); Ok (Data "ab"); Ok (Data "cd");
                 Ok EndOfMessage] in
  let self1 := snd (_data_received events Sample.fresh) in
  let self2 := snd (_send_http_internal_server_error self1) in
  _data_received events Sample.fresh = (Raise ProtocolError, self1) /\
  is_exception ProtocolError = true /\
  _send_http_internal_server_error self1 = (Raise ProtocolError, self2) /\
  data_received events Sample.fresh = (Raise ProtocolError, self2) /\
  closed (transport self2) = closed (transport self1) /\
  written (transport self2) = written (transport self1).
Proof.
  cbv zeta.
  set (events := [Ok (Request "PUT" "/x"); Ok (Data "ab"); Ok (Data "cd");
                  Ok EndOfMessage]).
  assert (H : _data_received events Sample.fresh
              = (Raise ProtocolError,
                 snd (_data_received events Sample.fresh)))
    by (vm_compute; reflexivity).
  assert (E : _send_http_internal_server_error
                (snd (_data_received events Sample.fresh))
              = (Raise ProtocolError,
                 snd (_send_http_internal_server_error
                        (snd (_data_received events Sample.fresh)))))
    by (vm_compute; reflexivity).
  split; [exact H|]. split; [reflexivity|]. split; [exact E|].
  exact (data_received_close_skipped events Sample.fresh H eq_refl E).
Defined.

Lemma every_response_well_formed_witness :
  let self :=
    snd (_on_get_done (Ok false)
           (snd (data_received
                   (request_events "GET" "/queue-bound-to-exchange/q1/e1" [])
                   Sample.fresh))) in
  reachable self /\ framed (written (transport self)).
Proof.
  cbv zeta.
  assert (R : reachable
                (snd (_on_get_done (Ok false)
                        (snd (data_received
                                (request_events "GET"
                                   "/queue-bound-to-exchange/q1/e1" [])
                                Sample.fresh))))).
  { apply reach_done, reach_data. exact (reach_init _ _). }
  split; [exact R|]. apply every_response_well_formed; exact R.
Defined.

Lemma phase_transitions_witness :
  _state Sample.fresh = WAITING_HEADERS /\
  ~ In (Ok EndOfMessage) [Ok (Request "GET" "/x"); Ok (Data "ab")] /\
  (exists self',
      loop_body (Request "PUT" "/x") Sample.fresh = (Ok tt, self') /\
      _state self' = WAITING_BODY /\
      _method self' = Some "PUT" /\ _target self' = Some "/x" /\
      silent Sample.fresh self') /\
  _state (snd (loop_body (Request "DELETE" "/messages-in-queue/q")
                 Sample.fresh)) = WAITING_HEADERS.
Proof.
  destruct (@phase_transitions Sample.strict_h11 Sample.broker_state
              Sample.runtime) as (_ & _ & G & P).
  split; [reflexivity|]. split.
  - intros [H|[H|[]]]; discriminate H.
  - split.
    + apply (P Sample.fresh "PUT" "/x"); [reflexivity | right; reflexivity].
    + apply (G Sample.fresh "/messages-in-queue/q"). reflexivity.
Defined.

Lemma post_add_message_witness :
  decode_utf8 Sample.hi_document = Some Sample.hi_document /\
  json_loads Sample.hi_document
  = Some (PDict [("headers", PDict []); ("body", PStr "hi")]) /\
  publish_message (_global_state Sample.fresh) "E" (PDict []) "hi"
  = (Ok (Some 0%Z), Sample.mkBroker ["E"] [("E", PDict [], "hi")]) /\
  ready (http_parser Sample.fresh) /\
  exists self' frame,
    _on_post "/add-message-on/E" Sample.hi_document Sample.fresh
    = (Ok tt, self') /\
    _global_state self' = Sample.mkBroker ["E"] [("E", PDict [], "hi")] /\
    written (transport self') = written (transport Sample.fresh) ++ frame /\
    exists digits,
      option_map Z.of_int (NilZero.int_of_string digits) = Some 0%Z /\
      response_frame 200 (digits ++ LF)%string frame.
Proof.
  split; [reflexivity|]. split; [reflexivity|]. split; [reflexivity|].
  split; [exact strict_ready|].
  apply (post_add_message Sample.fresh "E" Sample.hi_document
           (text := Sample.hi_document) (name := "E") (body_text := "hi")
           (d := [("headers", PDict []); ("body", PStr "hi")])
           (headers := PDict []) (body := "hi") (delivery_tag := Some 0%Z));
    try reflexivity.
  exact strict_ready.
Defined.

Lemma put_empty_body_unanswered_witness :
  _state Sample.fresh = WAITING_HEADERS /\
  exists self',
    data_received (request_events "PUT" "/anything" []) Sample.fresh
    = (Ok tt, self') /\
    silent Sample.fresh self' /\
    _state self' = WAITING_HEADERS /\
    _global_state self' = _global_state Sample.fresh /\
    http_parser self' = http_parser Sample.fresh.
Proof.
  split; [reflexivity|].
  apply (put_empty_body_unanswered Sample.fresh "/anything"). reflexivity.
Defined.

(** C9, as stated, fails. The wait completes with an error that is not the
    timeout: the done callback raises it, no 500 response is written and
    the transport stays open. *)
Lemma wait_failure_no_500 :
  let r := _on_get_done (Raise (OtherError 0)) Sample.fresh in
  fst r = Raise (OtherError 0) /\
  written (transport (snd r)) = [] /\
  closed (transport (snd r)) = false.
Proof. repeat split. Qed.

Lemma on_get_done_other_failure_witness :
  KeyError <> WaitTimeout /\
  _on_get_done (Raise KeyError) Sample.fresh = (Raise KeyError, Sample.fresh).
Proof.
  split; [discriminate|].
  apply on_get_done_other_failure; discriminate.
Defined.

Lemma get_acknowledged_bad_tag_witness :
  _state Sample.fresh = WAITING_HEADERS /\
  int_of_str "abc" = None /\
  ready (http_parser Sample.fresh) /\
  exists e self' frame,
    data_received
      [Ok (Request "GET" "/messages-acknowledged/abc"); Ok EndOfMessage]
      Sample.fresh = (Raise e, self') /\
    (e = UnicodeDecodeError \/ e = ValueError) /\
    response_frame 500 ("internal server error" ++ LF)%string frame /\
    written (transport self') = written (transport Sample.fresh) ++ frame /\
    closed (transport self') = true /\
    futures self' = futures Sample.fresh.
Proof.
  split; [reflexivity|]. split; [reflexivity|]. split; [exact strict_ready|].
  apply (get_acknowledged_bad_tag Sample.fresh "abc" [Ok EndOfMessage]).
  - reflexivity.
  - right. exists "abc". split; reflexivity.
  - exact strict_ready.
Defined.

(** * Further properties of the module *)

(** ** Splitting a target *)

Lemma cut_join (sep : ascii) (s l r : bytes) :
  cut sep s = Some (l, r) ->
  s = (l ++ String sep r)%string /\ has_byte sep l = false.
Proof.
  revert l r; induction s as [|a s IH]; intros l r H; simpl in H.
  - discriminate H.
  - destruct (Ascii.eqb a sep) eqn:E.
    + injection H as <- <-. apply Ascii.eqb_eq in E; subst a.
      split; reflexivity.
    + destruct (cut sep s) as [[l' r']|]; [|discriminate H].
      injection H as <- <-.
      destruct (IH l' r' eq_refl) as [-> N].
      split; [reflexivity|]. simpl. rewrite E, N. reflexivity.
Qed.

Lemma cut_none (sep : ascii) (s : bytes) :
  cut sep s = None <-> has_byte sep s = false.
Proof.
  induction s as [|a s IH]; simpl.
  - split; reflexivity.
  - destruct (Ascii.eqb a sep); simpl.
    + split; discriminate.
    + destruct (cut sep s) as [[l r]|].
      * split; [discriminate|]. intros H. apply IH in H. discriminate H.
      * split; [intros _; apply IH; reflexivity | reflexivity].
Qed.

Lemma cut_app (sep : ascii) (l r : bytes) :
  has_byte sep l = false ->
  cut sep (l ++ String sep r)%string = Some (l, r).
Proof.
  induction l as [|a l IH]; simpl; intros H.
  - rewrite Ascii.eqb_refl. reflexivity.
  - apply orb_false_iff in H as [E N]. rewrite E, (IH N). reflexivity.
Qed.

Lemma split_not_nil (sep : ascii) (n : nat) (s : bytes) : split sep n s <> [].
Proof.
  destruct n as [|n]; simpl; [discriminate|].
  destruct (cut sep s) as [[l r]|]; discriminate.
Qed.

(** [split] is undone by joining with the separator, yields between one
    and [maxsplit + 1] parts, and only its last part may still hold the
    separator. *)
Theorem split_join (sep : ascii) (maxsplit : nat) (s : bytes) :
  String.concat (String sep EmptyString) (split sep maxsplit s) = s /\
  (1 <= List.length (split sep maxsplit s) <= S maxsplit)%nat /\
  Forall (fun part => has_byte sep part = false)
         (removelast (split sep maxsplit s)).
Proof.
  revert s; induction maxsplit as [|n IH]; intros s.
  - simpl. repeat split; try lia; constructor.
  - simpl split. destruct (cut sep s) as [[l r]|] eqn:C.
    + destruct (cut_join sep s C) as [-> N].
      destruct (IH r) as (J & [L1 L2] & F).
      pose proof (split_not_nil sep n r) as NN.
      destruct (split sep n r) as [|p ps] eqn:E; [contradiction|].
      split; [|split].
      * change (String.concat (String sep EmptyString) (l :: p :: ps))
          with (l ++ String sep EmptyString
                  ++ String.concat (String sep EmptyString) (p :: ps))%string.
        rewrite J. reflexivity.
      * simpl List.length in *. lia.
      * change (removelast (l :: p :: ps)) with (l :: removelast (p :: ps)).
        constructor; assumption.
    + simpl. repeat split; try lia; constructor.
Qed.

(** X3. On a target that starts with the prefix of a one-parameter route, the
    third part of the split exists and is all the bytes after the prefix,
    slashes included: reading the parameter never raises [IndexError]. *)
Theorem path_parameter (target p : bytes) :
  In p one_parameter_prefixes ->
  startswith target p = true ->
  exists rest,
    target = (p ++ rest)%string /\
    nth_error (split "/" 2 target) 2 = Some rest.
Proof.
  intros Hp S.
  destruct (startswith_app target p S) as [rest ->].
  exists rest. split; [reflexivity|].
  simpl in Hp.
  repeat (destruct Hp as [<-|Hp]; [reflexivity|]).
  contradiction.
Qed.

(** ** The routes *)

(** X4. No target matches two GET routes: the order of the tests in [_on_get]
    decides nothing. *)
Theorem route_prefixes_exclusive (target p q : bytes) :
  In p get_prefixes -> In q get_prefixes ->
  startswith target p = true -> startswith target q = true ->
  p = q.
Proof.
  intros Hp Hq Sp Sq.
  destruct (startswith_app target p Sp) as [rest ->]. clear Sp.
  simpl in Hp, Hq.
  repeat (destruct Hp as [<-|Hp]; [|]);
    try contradiction;
    repeat (destruct Hq as [<-|Hq]; [|]);
    try contradiction; try reflexivity;
    simpl in Sq; discriminate Sq.
Qed.

Section Routes.

Context {h11 : H11} {gs : GlobalState} {py : PyRuntime}.

(** X5. Each deferred route registers its wait and does nothing else: the
    authentication route on the raw bytes after the prefix, whatever they
    are; the acknowledgement route on the integer the tag converts to; the
    binding route on the decoded queue (up to the first slash) and exchange
    (all that follows it). *)
Theorem deferred_routes_register (self : HTTPProtocol) :
  (forall username,
      _on_get ("/authentification-done-with-success-on/" ++ username)%string
              self
      = ensure_future (wait_authentication_performed_on username) self) /\
  (forall tag text n,
      decode_utf8 tag = Some text -> int_of_str text = Some n ->
      _on_get ("/messages-acknowledged/" ++ tag)%string self
      = ensure_future (wait_message_acknoledged n) self) /\
  (forall queue exchange q e,
      has_byte "/" queue = false ->
      decode_utf8 queue = Some q -> decode_utf8 exchange = Some e ->
      _on_get ("/queue-bound-to-exchange/" ++ queue ++ "/" ++ exchange)%string
              self
      = ensure_future (wait_queue_bound q e) self).
Proof.
  split; [|split].
  - intros username. reflexivity.
  - intros tag text n D I.
    unfold _on_get, index, decode, bind; simpl.
    rewrite D; simpl. rewrite I; reflexivity.
  - intros queue exchange q e N Dq De.
    unfold _on_get, decode, bind; simpl.
    rewrite (cut_app "/" queue exchange N); simpl.
    rewrite Dq; simpl. rewrite De; reflexivity.
Qed.

(** X6. The binding route with no slash after the queue name has too few parts
    to unpack: the handler raises [ValueError] and leaves the object as it
    was. *)
Theorem queue_bound_needs_exchange (self : HTTPProtocol) (queue : bytes) :
  has_byte "/" queue = false ->
  _on_get ("/queue-bound-to-exchange/" ++ queue)%string self
  = (Raise ValueError, self).
Proof.
  intros N. apply cut_none in N.
  unfold _on_get; simpl. rewrite N. reflexivity.
Qed.

Lemma send_messages_result (answer : option pyval) (s : HTTPProtocol) :
  ready (http_parser s) ->
  inspection_result answer s (send_messages answer s).
Proof.
  intros R. unfold inspection_result, send_messages.
  destruct answer as [messages|].
  - unfold bind, or_raise, encode.
    destruct (json_dumps messages) as [text|]; simpl; [|reflexivity].
    destruct (encode_utf8 text) as [body|]; simpl; [|reflexivity].
    apply with_body_ready; exact R.
  - apply with_body_ready; exact R.
Qed.

(** X7. The two inspection routes ask the broker for the messages of the queue
    or exchange named after the prefix (all bytes after it, decoded) and
    answer from what it returns: 404 when it knows no such name, 200 with
    the JSON text and a newline otherwise; messages that do not serialise
    raise, with nothing written. *)
Theorem inspection_routes (self : HTTPProtocol) (name_bytes : bytes)
    (name : str) (answer : option pyval) (g' : gstate) :
  decode_utf8 name_bytes = Some name ->
  ready (http_parser self) ->
  (get_messages_of_queue (_global_state self) name = (Ok answer, g') ->
   inspection_result answer (with_global_state g' self)
     (_on_get ("/messages-in-queue/" ++ name_bytes)%string self)) /\
  (get_messages_of_exchange (_global_state self) name = (Ok answer, g') ->
   inspection_result answer (with_global_state g' self)
     (_on_get ("/messages-in-exchange/" ++ name_bytes)%string self)).
Proof.
  intros D R. split; intros G.
  - replace (_on_get ("/messages-in-queue/" ++ name_bytes)%string self)
      with (send_messages answer (with_global_state g' self)).
    + apply send_messages_result; exact R.
    + unfold _on_get, index, decode, bind, global_state_call; simpl.
      rewrite D; simpl. rewrite G. reflexivity.
  - replace (_on_get ("/messages-in-exchange/" ++ name_bytes)%string self)
      with (send_messages answer (with_global_state g' self)).
    + apply send_messages_result; exact R.
    + unfold _on_get, index, decode, bind, global_state_call; simpl.
      rewrite D; simpl. rewrite G. reflexivity.
Qed.

(** X8. DELETE on [/messages-in-queue/<name>] calls the broker's delete on the
    decoded name and answers 204 whatever the broker did: there is no
    existence check. A name that does not decode raises before the broker
    is called; a failure of the broker is raised with nothing written. *)
Theorem delete_queue_no_content (self : HTTPProtocol) (name_bytes : bytes) :
  let target := ("/messages-in-queue/" ++ name_bytes)%string in
  (decode_utf8 name_bytes = None ->
   _on_delete target self = (Raise UnicodeDecodeError, self)) /\
  (forall name g',
      decode_utf8 name_bytes = Some name ->
      (forall e,
          delete_messages_of_queue (_global_state self) name = (Raise e, g') ->
          _on_delete target self = (Raise e, with_global_state g' self)) /\
      (delete_messages_of_queue (_global_state self) name = (Ok tt, g') ->
       ready (http_parser self) ->
       exists c frame,
         response_frame 204 EmptyString frame /\
         _on_delete target self
         = (Ok tt, after_response frame c (with_global_state g' self)))).
Proof.
  cbv zeta. split.
  - intros D. unfold _on_delete, index, decode, bind; simpl.
    rewrite D. reflexivity.
  - intros name g' D. split.
    + intros e G.
      unfold _on_delete, index, decode, bind, global_state_call; simpl.
      rewrite D; simpl. rewrite G. reflexivity.
    + intros G R.
      destruct (no_content_ready (with_global_state g' self) R)
        as (c & frame & F & W).
      exists c, frame. split; [exact F|].
      unfold _on_delete, index, decode, bind, global_state_call; simpl.
      rewrite D; simpl. rewrite G.
      exact W.
Qed.

(** X9. A target outside the route table is answered 404 by each handler, and
    that is all: the broker is not called, no wait is registered, and the
    POST handler does not look at the body. *)
Theorem unknown_target_not_found (self : HTTPProtocol) (target : bytes) :
  ready (http_parser self) ->
  exists c frame,
    response_frame 404 ("not found" ++ LF)%string frame /\
    ((forall p, In p get_prefixes -> startswith target p = false) ->
     _on_get target self = (Ok tt, after_response frame c self)) /\
    (startswith target "/add-message-on/" = false ->
     forall data,
       _on_post target data self = (Ok tt, after_response frame c self)) /\
    (startswith target "/messages-in-queue/" = false ->
     _on_delete target self = (Ok tt, after_response frame c self)).
Proof.
  intros R.
  destruct (with_body_ready 404 ("not found" ++ LF)%string self R)
    as (c & frame & F & W).
  exists c, frame. split; [exact F|]. split; [|split].
  - intros N. unfold _on_get.
    rewrite !N by (simpl; tauto). exact W.
  - intros N data. unfold _on_post. rewrite N. exact W.
  - intros N. unfold _on_delete. rewrite N. exact W.
Qed.

(** X10. A POST on [/add-message-on/<exchange>] whose body is not a message
    raises before the broker is called and leaves the object as it was:
    bytes that are not UTF-8, text that is not JSON, an exchange name that
    is not UTF-8, a document that is not an object, a missing [headers] or
    [body] field, a [body] that is not text or does not encode. *)
Theorem post_malformed_body (self : HTTPProtocol) (exchange data : bytes) :
  let run := _on_post ("/add-message-on/" ++ exchange)%string data self in
  (decode_utf8 data = None -> run = (Raise UnicodeDecodeError, self)) /\
  (forall text,
      decode_utf8 data = Some text ->
      (json_loads text = None -> run = (Raise ValueError, self)) /\
      (forall document,
          json_loads text = Some document ->
          (decode_utf8 exchange = None ->
           run = (Raise UnicodeDecodeError, self)) /\
          (forall name,
              decode_utf8 exchange = Some name ->
              ((forall d, document <> PDict d) ->
               run = (Raise TypeError, self)) /\
              (forall d,
                  document = PDict d ->
                  (dict_get d "headers" = None ->
                   run = (Raise KeyError, self)) /\
                  (forall headers,
                      dict_get d "headers" = Some headers ->
                      (dict_get d "body" = None ->
                       run = (Raise KeyError, self)) /\
                      (forall body,
                          dict_get d "body" = Some body ->
                          ((forall s, body <> PStr s) ->
                           run = (Raise AttributeError, self)) /\
                          (forall s,
                              body = PStr s -> encode_utf8 s = None ->
                              run = (Raise UnicodeEncodeError, self)))))))).
Proof.
  cbv zeta.
  unfold _on_post, index, decode, encode_value, encode, bind, lift, getitem;
    simpl.
  split.
  { intros D. rewrite D. reflexivity. }
  intros text D. rewrite D; simpl. split.
  { intros J. rewrite J. reflexivity. }
  intros document J. rewrite J; simpl. split.
  { intros Dx. rewrite Dx. reflexivity. }
  intros name Dx. rewrite Dx; simpl. split.
  { intros N. destruct document; try reflexivity. contradiction (N d eq_refl). }
  intros d ->. split.
  { intros Hh. rewrite Hh. reflexivity. }
  intros headers Hh. rewrite Hh; simpl. split.
  { intros Hb. rewrite Hb. reflexivity. }
  intros body Hb. rewrite Hb; simpl. split.
  { intros N. destruct body; try reflexivity. contradiction (N s eq_refl). }
  intros s -> En. rewrite En. reflexivity.
Qed.

(** X1. The writers never leave half a response: either the parser takes the
    head and, for a body, the body, and exactly these are written, or
    the parser's refusal is raised and nothing is written. Nothing but the
    parser and the transport log changes. *)
Theorem response_all_or_nothing (self : HTTPProtocol) :
  (forall status body,
      (exists c headers,
          well_formed_headers headers body /\
          _send_http_response_with_body status body self
          = (Ok tt,
             after_response [Serialised (Response status headers);
                             Serialised (Data body)] c self)) \/
      (exists e c,
          _send_http_response_with_body status body self
          = (Raise e, after_response [] c self))) /\
  ((exists c headers,
       well_formed_headers headers EmptyString /\
       _send_http_response_no_content self
       = (Ok tt, after_response [Serialised (Response 204 headers)] c self)) \/
   (exists e c,
       _send_http_response_no_content self
       = (Raise e, after_response [] c self))).
Proof.
  split.
  - intros status body.
    unfold _send_http_response_with_body, bind, http_parser_send,
      transport_write.
    simpl.
    destruct (send (http_parser self) _) as [[[]|e] c1] eqn:E1; simpl.
    + destruct (send c1 (Data body)) as [[[]|e] c2] eqn:E2; simpl.
      * left. eexists c2, _. split; [apply headers_well_formed|].
        unfold after_response; simpl. rewrite <- app_assoc. reflexivity.
      * right. exists e, c2. unfold after_response; simpl.
        rewrite app_nil_r. destruct self as [[w cl] g c st m t f]; reflexivity.
    + right. exists e, c1. unfold after_response; simpl.
      rewrite app_nil_r. destruct self as [[w cl] g c st m t f]; reflexivity.
  - unfold _send_http_response_no_content, bind, http_parser_send,
      transport_write.
    simpl.
    destruct (send (http_parser self) _) as [[[]|e] c1] eqn:E1; simpl.
    + left. eexists c1, _. split; [apply no_content_headers_well_formed|].
      reflexivity.
    + right. exists e, c1. unfold after_response; simpl.
      rewrite app_nil_r. destruct self as [[w cl] g c st m t f]; reflexivity.
Qed.

Lemma writer_with_body (status : Z) (body : bytes) :
  In status status_codes ->
  writer_outcome (_send_http_response_with_body status body).
Proof.
  intros S self; cbv zeta.
  destruct (with_body_cases status body self)
    as [(c & frame & F & W)|(e & c & W)]; rewrite W; simpl.
  - repeat split. exists status, body, frame. repeat split; assumption.
  - repeat split. apply app_nil_r.
Qed.

Lemma writer_no_content : writer_outcome _send_http_response_no_content.
Proof.
  intros self; cbv zeta.
  destruct (no_content_cases self) as [(c & frame & F & W)|(e & c & W)];
    rewrite W; simpl.
  - repeat split. exists 204%Z, EmptyString, frame.
    repeat split; [simpl; tauto | assumption].
  - repeat split. apply app_nil_r.
Qed.

Lemma writer_raise (e : exn) : writer_outcome (raise e).
Proof. intros self; cbv zeta; simpl. repeat split. Qed.

Lemma writer_try_except (m h : M unit) (handled : exn -> bool) :
  writer_outcome m -> writer_outcome h ->
  writer_outcome (try_except m handled h).
Proof.
  intros Hm Hh self; cbv zeta. unfold try_except.
  specialize (Hm self); cbv zeta in Hm.
  destruct (m self) as [[[]|e] s1]; simpl in *; [exact Hm|].
  destruct (handled e); [|exact Hm].
  destruct Hm as (R1 & F1 & G1 & W1).
  specialize (Hh s1); cbv zeta in Hh.
  destruct Hh as (R2 & F2 & G2 & W2).
  split; [eapply same_request_trans; eassumption|].
  split; [congruence|]. split; [congruence|].
  destruct (fst (h s1)).
  - destruct W2 as (status & body & frame & S & F & W).
    exists status, body, frame.
    split; [exact S|]. split; [exact F|]. congruence.
  - congruence.
Qed.

Lemma on_get_done_writer (future : result bool) :
  writer_outcome (_on_get_done future).
Proof.
  unfold _on_get_done.
  apply writer_try_except;
    [|apply writer_with_body; simpl; tauto].
  destruct future as [[|]|e].
  - exact writer_no_content.
  - apply writer_with_body; simpl; tauto.
  - exact (writer_raise e).
Qed.

(** X2. Whatever the wait's outcome and whatever the parser answers, the done
    callback leaves the request fields, the transport's open/closed flag,
    the registered waits and the broker as they were, and writes one whole
    response when it returns and nothing when it raises. *)
Theorem on_get_done_frame (future : result bool) (self : HTTPProtocol) :
  let out := _on_get_done future self in
  same_request self (snd out) /\
  futures (snd out) = futures self /\
  _global_state (snd out) = _global_state self /\
  match fst out with
  | Ok _ => exists status body frame,
      In status status_codes /\
      response_frame status body frame /\
      written (transport (snd out)) = written (transport self) ++ frame
  | Raise _ => written (transport (snd out)) = written (transport self)
  end.
Proof. exact (on_get_done_writer future self). Qed.

End Routes.

(** ** The loop, event by event and call by call *)

Section Loop.

Context {h11 : H11} {gs : GlobalState} {py : PyRuntime}.

Lemma bind_ret_tt (h : M unit) (s : HTTPProtocol) : (h ;; ret tt) s = h s.
Proof. unfold bind, ret. destruct (h s) as [[[]|e] s1]; reflexivity. Qed.

Lemma loop_body_request_in_body (self : HTTPProtocol)
    (method target : bytes) :
  _state self = WAITING_BODY ->
  loop_body (Request method target) self = (Ok tt, self).
Proof.
  intros S.
  unfold loop_body, request_block, data_block, bind, get_state; simpl.
  rewrite S. reflexivity.
Qed.

(** X11. An event the loop body has no branch for in the current phase (a
    request head while a body is awaited, body data while no body is
    awaited, a closed connection, a pause) changes nothing at all. *)
Theorem ignored_events (event : h11_event) (self : HTTPProtocol) :
  unhandled event self ->
  loop_body event self = (Ok tt, self).
Proof.
  intros U. destruct event; simpl in U; try contradiction;
    try reflexivity.
  - apply loop_body_request_in_body; exact U.
  - apply loop_body_data_ignored; exact U.
Qed.

Lemma loop_body_data_no_target (self : HTTPProtocol) (data : bytes) :
  _state self = WAITING_BODY -> _method self = Some "POST" ->
  _target self = None ->
  loop_body (Data data) self = (Raise AttributeError, self).
Proof.
  intros S Hm Ht. destruct self as [tr g c st m tg fs]; simpl in *; subst.
  reflexivity.
Qed.

Lemma loop_body_data_other (self : HTTPProtocol) (data : bytes) :
  _state self = WAITING_BODY ->
  bytes_is (_method self) "POST" = false ->
  bytes_is (_method self) "PUT" = false ->
  loop_body (Data data) self = (Ok tt, self).
Proof.
  intros S P U.
  unfold loop_body, request_block, data_block, bind, get_state, get_method,
    get_target; simpl.
  rewrite S; simpl. rewrite P, U. reflexivity.
Qed.

Lemma same_request_phase_ok (a b : HTTPProtocol) :
  same_request a b -> body_phase_ok a -> body_phase_ok b.
Proof.
  intros (S & M' & T & _) H. unfold body_phase_ok in *.
  rewrite S, M', T. exact H.
Qed.

(** The loop body is a change of the request fields followed by at most
    one handler call. *)
Lemma loop_body_shape (event : h11_event) (self : HTTPProtocol) :
  exists s0,
    silent self s0 /\
    closed (transport s0) = closed (transport self) /\
    (body_phase_ok self -> body_phase_ok s0) /\
    same_request s0 (snd (loop_body event self)) /\
    match fst (loop_body event self) with
    | Ok _ => silent s0 (snd (loop_body event self)) \/
              responded s0 (snd (loop_body event self)) \/
              deferred s0 (snd (loop_body event self))
    | Raise _ => silent s0 (snd (loop_body event self))
    end.
Proof.
  assert (Trivial : forall s0,
             loop_body event self = (Ok tt, s0) ->
             silent self s0 ->
             closed (transport s0) = closed (transport self) ->
             (body_phase_ok self -> body_phase_ok s0) ->
             exists s0,
               silent self s0 /\
               closed (transport s0) = closed (transport self) /\
               (body_phase_ok self -> body_phase_ok s0) /\
               same_request s0 (snd (loop_body event self)) /\
               match fst (loop_body event self) with
               | Ok _ => silent s0 (snd (loop_body event self)) \/
                         responded s0 (snd (loop_body event self)) \/
                         deferred s0 (snd (loop_body event self))
               | Raise _ => silent s0 (snd (loop_body event self))
               end).
  { intros s0 E Q C B. exists s0. rewrite E; simpl.
    split; [exact Q|]. split; [exact C|]. split; [exact B|].
    split; [apply same_request_refl|]. left; apply silent_refl. }
  assert (Handler : forall s0 h,
             loop_body event self = h s0 ->
             handler_outcome h ->
             silent self s0 ->
             closed (transport s0) = closed (transport self) ->
             (body_phase_ok self -> body_phase_ok s0) ->
             exists s0,
               silent self s0 /\
               closed (transport s0) = closed (transport self) /\
               (body_phase_ok self -> body_phase_ok s0) /\
               same_request s0 (snd (loop_body event self)) /\
               match fst (loop_body event self) with
               | Ok _ => silent s0 (snd (loop_body event self)) \/
                         responded s0 (snd (loop_body event self)) \/
                         deferred s0 (snd (loop_body event self))
               | Raise _ => silent s0 (snd (loop_body event self))
               end).
  { intros s0 h E O Q C B. exists s0. rewrite E.
    destruct (O s0) as [R Out].
    split; [exact Q|]. split; [exact C|]. split; [exact B|].
    split; [exact R|].
    destruct (fst (h s0)); [right; exact Out | exact Out]. }
  destruct event as [method target| | data | | |].
  - destruct (_state self) eqn:S.
    + assert (Idle : forall m, body_phase_ok self ->
                 body_phase_ok (snd (set_request m target self))).
      { intros m _ H. simpl in H. rewrite S in H. discriminate H. }
      destruct (String.eqb_spec method "GET") as [->|NG].
      { apply (Handler (snd (set_request "GET" target self)) (_on_get target));
          [rewrite (loop_body_get self target S); apply bind_ret_tt
          | apply outcome_on_get | split; reflexivity | reflexivity
          | apply Idle]. }
      destruct (String.eqb_spec method "DELETE") as [->|ND].
      { apply (Handler (snd (set_request "DELETE" target self))
                 (_on_delete target));
          [rewrite (loop_body_delete self target S); apply bind_ret_tt
          | apply outcome_on_delete | split; reflexivity | reflexivity
          | apply Idle]. }
      destruct (String.eqb_spec method "POST") as [->|NP].
      { eapply Trivial;
          [rewrite (loop_body_post self target S); reflexivity
          | split; reflexivity | reflexivity |].
        intros _ _. simpl. split; [left; reflexivity | eexists; reflexivity]. }
      destruct (String.eqb_spec method "PUT") as [->|NU].
      { eapply Trivial;
          [rewrite (loop_body_put self target S); reflexivity
          | split; reflexivity | reflexivity |].
        intros _ _. simpl. split; [right; reflexivity | eexists; reflexivity]. }
      eapply Trivial;
        [rewrite (loop_body_other_method self method target S); try reflexivity;
         apply String.eqb_neq; assumption
        | split; reflexivity | reflexivity | apply Idle].
    + apply (Trivial self);
        [first [apply loop_body_request_in_body | apply loop_body_data_ignored];
         exact S
        | apply silent_refl | reflexivity | auto].
  - apply (Trivial self);
      [reflexivity | apply silent_refl | reflexivity | auto].
  - destruct (_state self) eqn:S.
    + apply (Trivial self);
        [first [apply loop_body_request_in_body | apply loop_body_data_ignored];
         exact S
        | apply silent_refl | reflexivity | auto].
    + destruct (_method self) as [m|] eqn:Hm.
      * destruct (String.eqb_spec m "POST") as [->|NP].
        { destruct (_target self) as [t|] eqn:Ht.
          - apply (Handler self (_on_post t data));
              [apply loop_body_data_post; assumption | apply outcome_on_post
              | apply silent_refl | reflexivity | auto].
          - exists self. rewrite (loop_body_data_no_target self data S Hm Ht).
            simpl. split; [apply silent_refl|]. split; [reflexivity|].
            split; [auto|]. split; [apply same_request_refl|].
            apply silent_refl. }
        destruct (String.eqb_spec m "PUT") as [->|NU].
        { apply (Handler self (_on_put (_target self) data));
            [apply loop_body_data_put; assumption | apply outcome_on_put
            | apply silent_refl | reflexivity | auto]. }
        apply (Trivial self);
          [|apply silent_refl | reflexivity | auto].
        apply loop_body_data_other; [exact S | |]; rewrite Hm; simpl;
          apply String.eqb_neq; assumption.
      * apply (Trivial self);
          [|apply silent_refl | reflexivity | auto].
        apply loop_body_data_other; [exact S | |]; rewrite Hm; reflexivity.
  - eapply Trivial;
      [apply loop_body_end_of_message | split; reflexivity | reflexivity |].
    intros _ H. simpl in H. discriminate H.
  - apply (Trivial self);
      [reflexivity | apply silent_refl | reflexivity | auto].
  - apply (Trivial self);
      [reflexivity | apply silent_refl | reflexivity | auto].
Qed.

(** X12. One parser event has at most one effect: it writes one whole response,
    or registers one wait, or does neither; it does neither when its
    handler raises; and it never closes the transport. *)
Theorem one_effect_per_event (event : h11_event) (self : HTTPProtocol) :
  let out := loop_body event self in
  closed (transport (snd out)) = closed (transport self) /\
  match fst out with
  | Ok _ => silent self (snd out) \/ responded self (snd out) \/
            deferred self (snd out)
  | Raise _ => silent self (snd out)
  end.
Proof.
  cbv zeta.
  destruct (loop_body_shape event self) as (s0 & Q & C & _ & R & Out).
  split.
  - destruct R as (_ & _ & _ & Cl). congruence.
  - destruct (fst (loop_body event self)).
    + destruct Out as [O|[O|O]].
      * left; eapply silent_trans; eassumption.
      * right; left; eapply silent_responded; eassumption.
      * right; right; eapply silent_deferred; eassumption.
    + eapply silent_trans; eassumption.
Qed.

Lemma loop_body_keeps (event : h11_event) (self : HTTPProtocol) :
  let self' := snd (loop_body event self) in
  closed (transport self') = closed (transport self) /\
  (body_phase_ok self -> body_phase_ok self') /\
  exists frames waits,
    written (transport self') = written (transport self) ++ frames /\
    futures self' = futures self ++ waits.
Proof.
  cbv zeta.
  destruct (loop_body_shape event self) as (s0 & Q & C & B & R & Out).
  split; [destruct R as (_ & _ & _ & Cl); congruence|].
  split; [intros H; eapply same_request_phase_ok; [exact R | auto]|].
  assert (S0 : silent s0 (snd (loop_body event self)) ->
               exists frames waits,
                 written (transport (snd (loop_body event self)))
                 = written (transport self) ++ frames /\
                 futures (snd (loop_body event self))
                 = futures self ++ waits).
  { intros [W F]. destruct Q as [W0 F0]. exists [], [].
    rewrite !app_nil_r. split; congruence. }
  destruct Q as [W0 F0].
  destruct (fst (loop_body event self)); [|apply S0; exact Out].
  destruct Out as [O|[O|O]].
  - apply S0; exact O.
  - destruct O as (status & body & frame & _ & _ & W & F).
    exists frame, []. rewrite app_nil_r. split; congruence.
  - destruct O as (w & W & F).
    exists [], [w]. rewrite app_nil_r. split; congruence.
Qed.

Lemma data_received_inner_keeps (events : list (result h11_event))
    (self : HTTPProtocol) :
  let self' := snd (_data_received events self) in
  closed (transport self') = closed (transport self) /\
  (body_phase_ok self -> body_phase_ok self') /\
  exists frames waits,
    written (transport self') = written (transport self) ++ frames /\
    futures self' = futures self ++ waits.
Proof.
  cbv zeta. revert self.
  assert (Refl : forall self : HTTPProtocol,
             closed (transport self) = closed (transport self) /\
             (body_phase_ok self -> body_phase_ok self) /\
             exists frames waits,
               written (transport self) = written (transport self) ++ frames /\
               futures self = futures self ++ waits).
  { intros self. split; [reflexivity|]. split; [auto|].
    exists [], []. rewrite !app_nil_r. split; reflexivity. }
  induction events as [|[event|e] rest IH]; intros self.
  - apply Refl.
  - rewrite data_received_cons.
    destruct (loop_body_keeps event self) as (C & B & frames & waits & W & F).
    destruct (loop_body event self) as [[[]|e] s1]; simpl in *.
    + destruct (IH s1) as (C' & B' & frames' & waits' & W' & F').
      split; [congruence|]. split; [auto|].
      exists (frames ++ frames'), (waits ++ waits').
      rewrite !app_assoc. split; congruence.
    + split; [exact C|]. split; [exact B|]. exists frames, waits.
      split; assumption.
  - apply Refl.
Qed.

Lemma internal_server_error_writer :
  writer_outcome _send_http_internal_server_error.
Proof. apply writer_with_body; simpl; tauto. Qed.

(** X13. [data_received] closes the transport on its failure path only: when it
    returns normally the transport's open/closed flag is as before; and it
    never reopens a closed transport. *)
Theorem transport_closed_only_on_failure (events : list (result h11_event))
    (self : HTTPProtocol) :
  let out := data_received events self in
  (fst out = Ok tt ->
   closed (transport (snd out)) = closed (transport self)) /\
  (closed (transport self) = true ->
   closed (transport (snd out)) = true).
Proof.
  cbv zeta. unfold data_received.
  destruct (data_received_inner_keeps events self) as (C & _).
  destruct (_data_received events self) as [[[]|e] s1]; simpl in *.
  - split; intros; congruence.
  - destruct (is_exception e);
      [|split; [discriminate | simpl; intros; congruence]].
    unfold bind.
    destruct (internal_server_error_writer s1) as ((_ & _ & _ & C1) & _).
    destruct (_send_http_internal_server_error s1) as [[[]|e1] s2];
      simpl in *.
    + split; [discriminate | reflexivity].
    + split; [discriminate | congruence].
Qed.

(** X15. On a connection, whenever the phase is [WAITING_BODY] the recorded
    method is POST or PUT and a target is recorded: the POST handler is
    never handed a missing target. *)
Theorem body_phase_invariant (self : HTTPProtocol) :
  reachable self -> body_phase_ok self.
Proof.
  induction 1 as [g c | self events _ IH | self future _ IH].
  - intros H; discriminate H.
  - unfold data_received.
    destruct (data_received_inner_keeps events self) as (_ & B & _).
    specialize (B IH).
    destruct (_data_received events self) as [[[]|e] s1]; simpl in *;
      [exact B|].
    destruct (is_exception e); [|exact B].
    unfold bind.
    destruct (internal_server_error_writer s1) as (R & _).
    destruct (_send_http_internal_server_error s1) as [[[]|e1] s2];
      simpl in *.
    + assert (B2 : body_phase_ok s2)
        by (eapply same_request_phase_ok; eassumption).
      exact B2.
    + eapply same_request_phase_ok; eassumption.
  - destruct (on_get_done_writer future self) as (R & _).
    eapply same_request_phase_ok; eassumption.
Qed.

Lemma data_received_inner_app (a b : list (result h11_event))
    (self : HTTPProtocol) :
  _data_received (a ++ b) self = (_data_received a ;; _data_received b) self.
Proof.
  revert self; induction a as [|[event|e] a IH]; intros self.
  - reflexivity.
  - simpl app. rewrite data_received_cons. unfold bind at 1.
    rewrite data_received_cons.
    destruct (loop_body event self) as [[[]|e] s1]; [|reflexivity].
    rewrite IH. reflexivity.
  - reflexivity.
Qed.

Lemma data_received_ok_inner (events : list (result h11_event))
    (self s1 : HTTPProtocol) :
  data_received events self = (Ok tt, s1) ->
  _data_received events self = (Ok tt, s1).
Proof.
  unfold data_received.
  destruct (_data_received events self) as [[[]|e] s]; [auto|].
  destruct (is_exception e); [|discriminate].
  unfold bind.
  destruct (_send_http_internal_server_error s) as [[[]|e1] s2];
    simpl; discriminate.
Qed.

(** X16. How the events are cut into [data_received] calls does not matter: a
    call that returns followed by a second call is one call on all the
    events; and once processing raises, the events after it are not
    looked at. *)
Theorem data_received_segmentation (a b : list (result h11_event))
    (self : HTTPProtocol) :
  (forall s1,
      data_received a self = (Ok tt, s1) ->
      data_received (a ++ b) self = data_received b s1) /\
  (forall e s1,
      _data_received a self = (Raise e, s1) ->
      data_received (a ++ b) self = data_received a self).
Proof.
  split.
  - intros s1 H. apply data_received_ok_inner in H.
    unfold data_received. rewrite data_received_inner_app.
    unfold bind. rewrite H. reflexivity.
  - intros e s1 H.
    unfold data_received. rewrite data_received_inner_app.
    unfold bind at 1. rewrite H. reflexivity.
Qed.

(** X17. The body of a GET or DELETE request is ignored: with any body chunks
    the request is processed as with none. *)
Theorem get_delete_body_ignored (self : HTTPProtocol) (method target : bytes)
    (chunks : list bytes) :
  _state self = WAITING_HEADERS ->
  method = "GET" \/ method = "DELETE" ->
  data_received (request_events method target chunks) self
  = data_received (request_events method target []) self.
Proof.
  intros S Hm.
  assert (E : _data_received (request_events method target chunks) self
              = _data_received (request_events method target []) self).
  { unfold request_events. rewrite !data_received_cons.
    assert (St : _state (snd (loop_body (Request method target) self))
                 = WAITING_HEADERS).
    { destruct Hm as [-> | ->].
      - rewrite (loop_body_get self target S), bind_ret_tt.
        destruct (handler_same_request (snd (set_request "GET" target self))
                    (outcome_on_get target)) as [E _].
        rewrite E. exact S.
      - rewrite (loop_body_delete self target S), bind_ret_tt.
        destruct (handler_same_request
                    (snd (set_request "DELETE" target self))
                    (outcome_on_delete target)) as [E _].
        rewrite E. exact S. }
    destruct (loop_body (Request method target) self) as [[[]|e] s1];
      [|reflexivity].
    simpl in St. rewrite (chunks_ignored chunks _ s1 St). reflexivity. }
  unfold data_received. rewrite E. reflexivity.
Qed.


(** X19. A call that processes an end of message last and returns leaves the
    connection idle: phase [WAITING_HEADERS], no method, no target. *)
Theorem request_cycle_ends_idle (events : list (result h11_event))
    (self self' : HTTPProtocol) :
  data_received (events ++ [Ok EndOfMessage]) self = (Ok tt, self') ->
  idle self'.
Proof.
  intros H. apply data_received_ok_inner in H.
  rewrite data_received_inner_app in H. unfold bind in H.
  destruct (_data_received events self) as [[[]|e] s1]; [|discriminate H].
  rewrite data_received_end in H. injection H as <-.
  repeat split.
Qed.

End Loop.

(** ** The further properties on the concrete connection *)

Lemma path_parameter_witness :
  In "/messages-in-queue/" one_parameter_prefixes /\
  startswith "/messages-in-queue/a/b" "/messages-in-queue/" = true /\
  exists rest,
    "/messages-in-queue/a/b" = ("/messages-in-queue/" ++ rest)%string /\
    nth_error (split "/" 2 "/messages-in-queue/a/b") 2 = Some rest.
Proof.
  assert (I : In "/messages-in-queue/" one_parameter_prefixes)
    by (simpl; tauto).
  split; [exact I|]. split; [reflexivity|].
  apply (path_parameter "/messages-in-queue/a/b" I). reflexivity.
Defined.

Lemma route_prefixes_exclusive_witness :
  In "/messages-in-queue/" get_prefixes /\
  startswith "/messages-in-queue/q" "/messages-in-queue/" = true /\
  "/messages-in-queue/" = "/messages-in-queue/".
Proof.
  assert (I : In "/messages-in-queue/" get_prefixes)
    by (simpl; tauto).
  split; [exact I|]. split; [reflexivity|].
  apply (route_prefixes_exclusive "/messages-in-queue/q" I I);
    reflexivity.
Defined.

Lemma deferred_routes_register_witness :
  decode_utf8 "42" = Some "42" /\ int_of_str "42" = Some 42%Z /\
  has_byte "/" "q1" = false /\
  _on_get "/messages-acknowledged/42" Sample.fresh
  = ensure_future (wait_message_acknoledged 42) Sample.fresh /\
  _on_get "/queue-bound-to-exchange/q1/e1/x" Sample.fresh
  = ensure_future (wait_queue_bound "q1" "e1/x") Sample.fresh.
Proof.
  destruct (@deferred_routes_register Sample.strict_h11 Sample.broker_state
              Sample.runtime Sample.fresh) as (_ & A & B).
  split; [reflexivity|]. split; [reflexivity|]. split; [reflexivity|].
  split.
  - apply (A "42" "42" 42%Z); reflexivity.
  - apply (B "q1" "e1/x" "q1" "e1/x"); reflexivity.
Defined.

Lemma queue_bound_needs_exchange_witness :
  has_byte "/" "q1" = false /\
  _on_get "/queue-bound-to-exchange/q1" Sample.fresh
  = (Raise ValueError, Sample.fresh).
Proof.
  split; [reflexivity|].
  apply (queue_bound_needs_exchange Sample.fresh "q1"). reflexivity.
Defined.

Lemma inspection_routes_witness :
  decode_utf8 "E" = Some "E" /\
  ready (http_parser Sample.fresh) /\
  get_messages_of_queue (_global_state Sample.fresh) "E"
  = (Ok (Some (PList [])), _global_state Sample.fresh) /\
  inspection_result (Some (PList []))
    (with_global_state (_global_state Sample.fresh) Sample.fresh)
    (_on_get "/messages-in-queue/E" Sample.fresh).
Proof.
  split; [reflexivity|]. split; [exact strict_ready|].
  split; [reflexivity|].
  destruct (@inspection_routes Sample.strict_h11 Sample.broker_state
              Sample.runtime Sample.fresh "E" "E"
              (Some (PList [])) (_global_state Sample.fresh)
              eq_refl strict_ready) as [Q _].
  apply Q. reflexivity.
Defined.

Lemma delete_queue_no_content_witness :
  decode_utf8 "nowhere" = Some "nowhere" /\
  delete_messages_of_queue (_global_state Sample.fresh) "nowhere"
  = (Ok tt, _global_state Sample.fresh) /\
  ready (http_parser Sample.fresh) /\
  exists c frame,
    response_frame 204 EmptyString frame /\
    _on_delete "/messages-in-queue/nowhere" Sample.fresh
    = (Ok tt,
       after_response frame c
         (with_global_state (_global_state Sample.fresh) Sample.fresh)).
Proof.
  split; [reflexivity|]. split; [reflexivity|]. split; [exact strict_ready|].
  destruct (@delete_queue_no_content Sample.strict_h11 Sample.broker_state
              Sample.runtime Sample.fresh "nowhere") as [_ D].
  destruct (D "nowhere" (_global_state Sample.fresh) eq_refl) as [_ K].
  apply K; [reflexivity | exact strict_ready].
Defined.

Lemma unknown_target_not_found_witness :
  ready (http_parser Sample.fresh) /\
  startswith "/nope" "/add-message-on/" = false /\
  exists c frame,
    response_frame 404 ("not found" ++ LF)%string frame /\
    _on_post "/nope" "ignored" Sample.fresh
    = (Ok tt, after_response frame c Sample.fresh).
Proof.
  split; [exact strict_ready|]. split; [reflexivity|].
  destruct (@unknown_target_not_found Sample.strict_h11 Sample.broker_state
              Sample.runtime Sample.fresh "/nope" strict_ready)
    as (c & frame & F & _ & P & _).
  exists c, frame. split; [exact F|]. apply P. reflexivity.
Defined.

Lemma post_malformed_body_witness :
  decode_utf8 Sample.hi_head = Some Sample.hi_head /\
  json_loads Sample.hi_head = None /\
  _on_post "/add-message-on/E" Sample.hi_head Sample.fresh
  = (Raise ValueError, Sample.fresh).
Proof.
  split; [reflexivity|]. split; [reflexivity|].
  destruct (@post_malformed_body Sample.strict_h11 Sample.broker_state
              Sample.runtime Sample.fresh "E" Sample.hi_head) as [_ P].
  destruct (P Sample.hi_head eq_refl) as [J _].
  apply J. reflexivity.
Defined.

Lemma ignored_events_witness :
  let waiting :=
    snd (loop_body (Request "POST" "/add-message-on/E") Sample.fresh) in
  unhandled (Request "GET" "/x") waiting /\
  loop_body (Request "GET" "/x") waiting = (Ok tt, waiting).
Proof.
  cbv zeta. split; [reflexivity|].
  apply ignored_events. reflexivity.
Defined.

Lemma transport_closed_only_on_failure_witness :
  let shut :=
    snd (data_received [Ok (Request "GET" "/messages-acknowledged/abc")]
           Sample.fresh) in
  fst (data_received (request_events "GET" "/nope" []) Sample.fresh) = Ok tt /\
  closed (transport
            (snd (data_received (request_events "GET" "/nope" [])
                    Sample.fresh)))
  = closed (transport Sample.fresh) /\
  closed (transport shut) = true /\
  closed (transport (snd (data_received [Ok EndOfMessage] shut))) = true.
Proof.
  cbv zeta.
  split; [reflexivity|]. split.
  - apply (transport_closed_only_on_failure
             (request_events "GET" "/nope" []) Sample.fresh). reflexivity.
  - split; [reflexivity|].
    apply transport_closed_only_on_failure. reflexivity.
Defined.

Lemma body_phase_invariant_witness :
  let self :=
    snd (data_received [Ok (Request "PUT" "/x"); Ok (Data "ab")]
           Sample.fresh) in
  reachable self /\ body_phase_ok self.
Proof.
  cbv zeta.
  assert (R : reachable
                (snd (data_received [Ok (Request "PUT" "/x"); Ok (Data "ab")]
                        Sample.fresh)))
    by (apply reach_data; exact (reach_init _ _)).
  split; [exact R|]. apply body_phase_invariant; exact R.
Defined.

Lemma data_received_segmentation_witness :
  let head := [Ok (Request "POST" "/add-message-on/E")] in
  let tail := [Ok (Data Sample.hi_document); Ok EndOfMessage] in
  let s1 := snd (data_received head Sample.fresh) in
  data_received head Sample.fresh = (Ok tt, s1) /\
  data_received (head ++ tail) Sample.fresh = data_received tail s1.
Proof.
  cbv zeta. split; [reflexivity|].
  apply data_received_segmentation. reflexivity.
Defined.

Lemma get_delete_body_ignored_witness :
  _state Sample.fresh = WAITING_HEADERS /\
  data_received (request_events "DELETE" "/messages-in-queue/q" ["ab"; "cd"])
    Sample.fresh
  = data_received (request_events "DELETE" "/messages-in-queue/q" [])
      Sample.fresh.
Proof.
  split; [reflexivity|].
  apply get_delete_body_ignored; [reflexivity | right; reflexivity].
Defined.


Lemma request_cycle_ends_idle_witness :
  let events := [Ok (Request "PUT" "/x"); Ok (Data "ab")] in
  let self' :=
    snd (data_received (events ++ [Ok EndOfMessage]) Sample.fresh) in
  data_received (events ++ [Ok EndOfMessage]) Sample.fresh = (Ok tt, self') /\
  idle self'.
Proof.
  cbv zeta.
  assert (H : data_received
                ([Ok (Request "PUT" "/x"); Ok (Data "ab")]
                   ++ [Ok EndOfMessage]) Sample.fresh
              = (Ok tt,
                 snd (data_received
                        ([Ok (Request "PUT" "/x"); Ok (Data "ab")]
                           ++ [Ok EndOfMessage]) Sample.fresh)))
    by (vm_compute; reflexivity).
  split; [exact H|].
  exact (request_cycle_ends_idle _ _ H).
Defined.
